(** * indi_aws.aws_utils: the S3 synchronisation helpers

  A shallow embedding of [src/indi_aws/aws_utils.py]: the progress
  tracker [ProgressPercentage] and the bulk operations [s3_rename],
  [s3_delete], [s3_download] and [s3_upload].

  The Python functions talk to three things outside the module: a boto3
  [Bucket] resource, the local filesystem (through [os] and [open]) and
  standard output.  They are modelled by one explicit [world] that every
  operation threads through, together with a record of the requests sent
  to the bucket, so that "no copy was issued" is a statement about a
  list.  Exceptions and the [continue] statement are outcomes of a small
  state-and-exception monad.

  The rest of the package follows: [md5_sum] and [test_bucket_access],
  and [return_aws_keys] and [return_bucket] of
  [src/indi_aws/fetch_creds.py]. *)

From stdpp Require Import gmap strings list fin_maps sorting.
From Stdlib Require Import Ascii QArith.

(** ** Python string methods used by the module *)

Module PyStr.

(** [s.startswith(p)] *)
Definition startswith (s p : string) : bool := String.prefix p s.

(** [s.lstrip(c)] for a one-character set [c]. *)
Fixpoint lstrip (c : ascii) (s : string) : string :=
  match s with
  | String a s' => if Ascii.eqb a c then lstrip c s' else s
  | EmptyString => EmptyString
  end.

(** [s.rstrip(c)] for a one-character set [c]. *)
Fixpoint rstrip (c : ascii) (s : string) : string :=
  match s with
  | String a s' =>
      match rstrip c s' with
      | EmptyString => if Ascii.eqb a c then EmptyString else String a EmptyString
      | r => String a r
      end
  | EmptyString => EmptyString
  end.

(** [s.strip(c)] *)
Definition strip (c : ascii) (s : string) : string := rstrip c (lstrip c s).

(** [s.split(sep)] for a one-character separator: never the empty list. *)
Fixpoint split (sep : ascii) (s : string) : list string :=
  match s with
  | EmptyString => [EmptyString]
  | String a s' =>
      if Ascii.eqb a sep then EmptyString :: split sep s'
      else match split sep s' with
           | hd :: tl => String a hd :: tl
           | [] => [String a EmptyString]
           end
  end.

(** [s.replace(old, new)] for a non-empty [old]: the occurrences of [old]
    are taken left to right and do not overlap.  [skip] counts the
    characters of a matched occurrence that are still to be dropped. *)
Fixpoint replace_from (skip : nat) (old new s : string) : string :=
  match s with
  | EmptyString => EmptyString
  | String a s' =>
      match skip with
      | S k => replace_from k old new s'
      | O =>
          if String.prefix old s
          then new +:+ replace_from (Nat.pred (String.length old)) old new s'
          else String a (replace_from O old new s')
      end
  end.

Definition replace (s old new : string) : string := replace_from O old new s.

(** [posixpath.dirname]: the part before the last slash, with the slashes
    that end it removed unless it is made of slashes only. *)
Fixpoint upto_last_slash (s : string) : string :=
  match s with
  | EmptyString => EmptyString
  | String a s' =>
      match upto_last_slash s' with
      | EmptyString => if Ascii.eqb a "/"%char then String a EmptyString else EmptyString
      | r => String a r
      end
  end.

Definition dirname (p : string) : string :=
  let head := upto_last_slash p in
  match lstrip "/"%char head with
  | EmptyString => head
  | _ => rstrip "/"%char head
  end.

(** [repr] of a list of strings, as [str.format] renders it (the
    escaping of quotes inside the items is left out). *)
Fixpoint repr_items (l : list string) : string :=
  match l with
  | [] => EmptyString
  | [x] => "'" +:+ x +:+ "'"
  | x :: l' => "'" +:+ x +:+ "', " +:+ repr_items l'
  end.

Definition repr_list (l : list string) : string := "[" +:+ repr_items l +:+ "]".

(** What is left of [s] after its prefix [p], when it starts with it. *)
Fixpoint removeprefix (p s : string) : option string :=
  match p, s with
  | EmptyString, _ => Some s
  | String a p', String b s' => if Ascii.eqb a b then removeprefix p' s' else None
  | String _ _, EmptyString => None
  end.

End PyStr.

(** The double quote that wraps the ETag the store reports. *)
Definition dquote : ascii := "034"%char.

(** ** Exceptions

    [ClientError] is [botocore.exceptions.ClientError], the error response
    of the service with its code.  [BotoError] stands for every other
    exception the client library raises (no connection, no credentials, a
    failed transfer). The remaining ones are Python's own. *)

Inductive exn : Type :=
| ClientError (code : string)
| BotoError (what : string)
| ValueError (msg : string)
| RuntimeError (msg : string)
| IndexError
| OSError (what : string)
| ZeroDivisionError.

(** [except ClientError] *)
Definition is_ClientError (e : exn) : bool :=
  match e with ClientError _ => true | _ => false end.

(** [except Exception]: every exception of the model is an [Exception]. *)
Definition is_Exception (e : exn) : bool := true.

(** ** The world outside the module *)

(** An object of the bucket: its content and the ETag the store reports. *)
Record s3object : Type := S3Object { body : string; e_tag : string }.

Definition content_length (o : s3object) : Z := Z.of_nat (String.length (body o)).

(** A local path is a regular file or a directory. *)
Inductive node : Type := File (content : string) | Dir.

(** The requests the module sends to the bucket. *)
Inductive call : Type :=
| Get (key : string)
| CopyFrom (key copy_source : string) (acl : option string)
| Delete (key : string)
| DownloadFile (key filename : string)
| UploadFile (filename key : string) (extra_args : gmap string string).

(** The lines the module prints, one constructor per [print] or
    [sys.stdout.write] of the source, with the arguments of its format. *)
Inductive line : Type :=
| SourceMissing (src_f : string)
| DestinationExists (dst_key : string)
| CopyingSource (src_f dst_key : string)
| MakingPublic
| DoneRenaming (done total : nat) (per : Q)
| AttemptingDelete (bkey bucket_name : string)
| DoneDeleting (done total : nat) (per : Q)
| UnableToDelete (bkey : string) (exc : exn)
| NotInBucket (bkey : string) (exc : exn)
| SkippingDownloaded (bkey : string)
| Overwriting (local_path : string)
| CouldNotDownload (bkey : string) (exc : exn)
| Downloading (bkey local_path : string)
| FinishedFile (done total : nat) (per : Q)
| UploadingAs (src_file bucket_name dst_file : string)
| Progress (seen_so_far total : Z) (percentage : Q).

Record world : Type := World {
  objects : gmap string s3object;
  files : gmap string node;
  calls : list call;
  stdout : list line
}.

(** What a request can be made to fail with, whatever the bucket holds: an
    error response of the service or a failure of the client. *)
Inductive fault : Type := ServiceError (code : string) | ClientFailure (what : string).

Definition exn_of_fault (f : fault) : exn :=
  match f with
  | ServiceError code => ClientError code
  | ClientFailure what => BotoError what
  end.

(** The boto3 [Bucket] handed to every function: its name, the requests
    that fail (a missing permission, a dead connection) and the ETag the
    store gives to a body it receives. *)
Record bucket : Type := Bucket {
  name : string;
  faults : call -> option fault;
  etag_of : string -> string
}.

Definition set_objects (f : gmap string s3object -> gmap string s3object) (w : world) : world :=
  World (f (objects w)) (files w) (calls w) (stdout w).

Definition set_files (f : gmap string node -> gmap string node) (w : world) : world :=
  World (objects w) (f (files w)) (calls w) (stdout w).

Definition add_call (c : call) (w : world) : world :=
  World (objects w) (files w) (calls w ++ [c]) (stdout w).

Definition add_line (l : line) (w : world) : world :=
  World (objects w) (files w) (calls w) (stdout w ++ [l]).

(** ** Statements: state, exceptions and [continue] *)

Inductive outcome (A : Type) : Type :=
| Normal (a : A)
| Raised (e : exn)
| Continued.

Arguments Normal {A} a.
Arguments Raised {A} e.
Arguments Continued {A}.

Definition M (A : Type) : Type := world -> world * outcome A.

Definition ret {A : Type} (a : A) : M A := fun w => (w, Normal a).

Definition bind {A B : Type} (m : M A) (k : A -> M B) : M B :=
  fun w =>
    match m w with
    | (w', Normal a) => k a w'
    | (w', Raised e) => (w', Raised e)
    | (w', Continued) => (w', Continued)
    end.

Definition raise {A : Type} (e : exn) : M A := fun w => (w, Raised e).

(** [continue] *)
Definition continue {A : Type} : M A := fun w => (w, Continued).

Definition gets {A : Type} (f : world -> A) : M A := fun w => (w, Normal (f w)).

Definition modify (f : world -> world) : M unit := fun w => (f w, Normal tt).

Declare Scope py_scope.
Delimit Scope py_scope with py.
Notation "'let*' x ':=' c 'in' k" := (bind c (fun x => k))
  (at level 10, x name, c at level 100, k at level 200) : py_scope.
Notation "c ;; k" := (bind c (fun _ => k))
  (at level 100, k at level 200, right associativity) : py_scope.
Local Open Scope py_scope.

(** [try: m  except <catches> as exc: handler exc].  A [continue] inside
    [m] leaves the [try] statement untouched. *)
Definition try_except {A : Type} (m : M A) (catches : exn -> bool) (handler : exn -> M A) : M A :=
  fun w =>
    match m w with
    | (w', Raised e) => if catches e then handler e w' else (w', Raised e)
    | r => r
    end.

(** [for idx, x in enumerate(l): body], counting from [idx]. *)
Fixpoint for_enumerate {A : Type} (idx : nat) (l : list A) (body : nat -> A -> M unit) : M unit :=
  match l with
  | [] => ret tt
  | x :: l' =>
      fun w =>
        match body idx x w with
        | (w', Raised e) => (w', Raised e)
        | (w', _) => for_enumerate (S idx) l' body w'
        end
  end.

Definition print (l : line) : M unit := modify (add_line l).

(** [l[idx]] *)
Definition py_index {A : Type} (l : list A) (idx : nat) : M A :=
  match l !! idx with
  | Some x => ret x
  | None => raise IndexError
  end.

(** [100*(float(done)/total)] *)
Definition percent_done (done total : nat) : M Q :=
  match total with
  | O => raise ZeroDivisionError
  | S _ => ret (100 * (inject_Z (Z.of_nat done) / inject_Z (Z.of_nat total)))%Q
  end.

(** [a / b] on floats *)
Definition py_truediv (a b : Z) : M Q :=
  if Z.eqb b 0 then raise ZeroDivisionError else ret (inject_Z a / inject_Z b)%Q.

(** ** The local filesystem: [os.path], [os.makedirs], [open(..).read()]

    Paths are compared as they are written, and [os.path.exists] of the
    empty path is false. *)

Definition os_path_exists (p : string) : M bool :=
  gets (fun w => if decide (p = EmptyString) then false
                 else bool_decide (is_Some (files w !! p))).

Definition os_path_isdir (p : string) : M bool :=
  gets (fun w => match files w !! p with Some Dir => true | _ => false end).

(** The size of a directory entry depends on the filesystem; 4096 is the
    usual block. *)
Definition os_path_getsize (p : string) : M Z :=
  let* n := gets (fun w => files w !! p) in
  match n with
  | Some (File content) => ret (Z.of_nat (String.length content))
  | Some Dir => ret 4096%Z
  | None => raise (OSError "FileNotFoundError")
  end.

Definition open_read (p : string) : M string :=
  let* n := gets (fun w => files w !! p) in
  match n with
  | Some (File content) => ret content
  | Some Dir => raise (OSError "IsADirectoryError")
  | None => raise (OSError "FileNotFoundError")
  end.

(** [os.makedirs name]: the missing ancestors are made first, then [name]
    itself, which must not exist.  The recursion follows [dirname], which
    shortens the path. *)
Fixpoint makedirs_in (fuel : nat) (name : string) (fs : gmap string node) : exn + gmap string node :=
  match fuel with
  | O => inl (OSError "FileNotFoundError")
  | S fuel' =>
      if decide (name = EmptyString) then inl (OSError "FileNotFoundError")
      else
        let head := PyStr.dirname name in
        let parents :=
          if decide (head = EmptyString) then inr fs
          else match fs !! head with
               | Some Dir => inr fs
               | Some (File _) => inl (OSError "NotADirectoryError")
               | None => makedirs_in fuel' head fs
               end in
        match parents with
        | inl e => inl e
        | inr fs' =>
            match fs' !! name with
            | Some _ => inl (OSError "FileExistsError")
            | None => inr (<[name := Dir]> fs')
            end
        end
  end.

Definition os_makedirs (name : string) : M unit :=
  fun w =>
    match makedirs_in (S (String.length name)) name (files w) with
    | inl e => (w, Raised e)
    | inr fs => (set_files (fun _ => fs) w, Normal tt)
    end.

(** ** class ProgressPercentage *)

(** The duck-typed [filename] argument: an object with [content_length]
    (an [s3.Object]), an object with [size] (an [s3.ObjectSummary]), or a
    local path. *)
Inductive filename_arg : Type :=
| WithContentLength (content_length : Z)
| WithSize (size : Z)
| LocalPath (path : string).

Module ProgressPercentage.

(** The attributes of an instance; [_size] is [float] of an integer and is
    kept as that integer. The lock serialises the calls, which are therefore
    run one after the other. *)
Record t : Type := Make {
  _filename : filename_arg;
  _size : Z;
  _seen_so_far : Z
}.

Definition __init__ (filename : filename_arg) : M t :=
  let* size :=
    match filename with
    | WithContentLength content_length => ret content_length
    | WithSize size => ret size
    | LocalPath path => os_path_getsize path
    end in
  ret (Make filename size 0).

(** [self(bytes_amount)]: returns the instance with its new running total. *)
Definition __call__ (self : t) (bytes_amount : Z) : M t :=
  let seen_so_far := (_seen_so_far self + bytes_amount)%Z in
  let* percentage :=
    if negb (Z.eqb (_size self) 0)
    then let* ratio := py_truediv seen_so_far (_size self) in ret (ratio * 100)%Q
    else ret 0%Q in
  print (Progress seen_so_far (_size self) percentage) ;;
  ret (Make (_filename self) (_size self) seen_so_far).

(** The transfer manager calling the tracker once per chunk of bytes. *)
Fixpoint deliver (self : t) (chunks : list Z) : M t :=
  match chunks with
  | [] => ret self
  | bytes_amount :: rest => let* self' := __call__ self bytes_amount in deliver self' rest
  end.

End ProgressPercentage.

(** ** The boto3 resources

    Every method call is recorded in [calls] first; it raises the fault the
    bucket has for it, if any, and otherwise acts on the objects. *)

Definition request (b : bucket) (c : call) : M unit :=
  modify (add_call c) ;;
  match faults b c with
  | Some f => raise (exn_of_fault f)
  | None => ret tt
  end.

(** [bucket.Object(key).get()]; the attributes read afterwards ([e_tag],
    [content_length]) are those of the object it returns. *)
Definition Object_get (b : bucket) (key : string) : M s3object :=
  request b (Get key) ;;
  let* o := gets (fun w => objects w !! key) in
  match o with
  | Some obj => ret obj
  | None => raise (ClientError "NoSuchKey")
  end.

(** [bucket.Object(key).delete()]: deleting an absent key is no error. *)
Definition Object_delete (b : bucket) (key : string) : M unit :=
  request b (Delete key) ;;
  modify (set_objects (delete key)).

(** [bucket.Object(key).copy_from(CopySource=copy_source, ACL=acl)] with a
    copy source of the form [bucket/key]. *)
Definition Object_copy_from (b : bucket) (key copy_source : string) (acl : option string) : M unit :=
  request b (CopyFrom key copy_source acl) ;;
  match PyStr.removeprefix (name b +:+ "/") copy_source with
  | None => raise (ClientError "NoSuchBucket")
  | Some src =>
      let* o := gets (fun w => objects w !! src) in
      match o with
      | Some obj => modify (set_objects (insert key obj))
      | None => raise (ClientError "NoSuchKey")
      end
  end.

(** [bucket.download_file(key, filename, Callback=callback)]; the body
    arrives as one chunk. *)
Definition Bucket_download_file (b : bucket) (key filename : string) (callback : ProgressPercentage.t) : M unit :=
  request b (DownloadFile key filename) ;;
  let* o := gets (fun w => objects w !! key) in
  match o with
  | None => raise (ClientError "404")
  | Some obj =>
      let* n := gets (fun w => files w !! filename) in
      match n with
      | Some Dir => raise (OSError "IsADirectoryError")
      | _ =>
          modify (set_files (insert filename (File (body obj)))) ;;
          ProgressPercentage.deliver callback [content_length obj] ;;
          ret tt
      end
  end.

(** [bucket.upload_file(filename, key, ExtraArgs=extra_args,
    Callback=callback)]; the file leaves as one chunk and the store gives
    the new object the ETag [etag_of] of its body. *)
Definition Bucket_upload_file (b : bucket) (filename key : string)
    (extra_args : gmap string string) (callback : ProgressPercentage.t) : M unit :=
  request b (UploadFile filename key extra_args) ;;
  let* content := open_read filename in
  modify (set_objects (insert key (S3Object content (etag_of b content)))) ;;
  ProgressPercentage.deliver callback [Z.of_nat (String.length content)] ;;
  ret tt.

(** ** The functions of aws_utils.py *)

Section aws_utils.

(** [hashlib.md5(data).hexdigest()] *)
Variable md5_hexdigest : string -> string.

(** *** s3_rename *)

(** The body of the loop of [s3_rename] (lines 157-189). *)
Definition s3_rename_body (bucket : bucket) (dst_list : list string)
    (keep_old make_public : bool) (num_files idx : nat) (src_f : string) : M unit :=
  try_except (Object_get bucket src_f ;; ret tt) is_ClientError
    (fun _ => print (SourceMissing src_f) ;; continue) ;;
  let* dst_key := py_index dst_list idx in
  try_except
    (Object_get bucket dst_key ;;
     print (DestinationExists dst_key) ;;
     continue)
    is_ClientError
    (fun _ =>
       print (CopyingSource src_f dst_key) ;;
       (if make_public
        then print MakingPublic ;;
             Object_copy_from bucket dst_key (name bucket +:+ "/" +:+ src_f) (Some "public-read")
        else Object_copy_from bucket dst_key (name bucket +:+ "/" +:+ src_f) None) ;;
       (if negb keep_old then Object_delete bucket src_f else ret tt)) ;;
  let* per := percent_done (S idx) num_files in
  print (DoneRenaming (S idx) num_files per).

Definition s3_rename (bucket : bucket) (src_dst_tuple : list string * list string)
    (keep_old make_public : bool) : M unit :=
  let src_list := fst src_dst_tuple in
  let dst_list := snd src_dst_tuple in
  (if negb (Nat.eqb (length src_list) (length dst_list))
   then raise (ValueError "src_list and dst_list are different lengths!")
   else ret tt) ;;
  let num_files := length src_list in
  (if negb (Nat.eqb num_files (length dst_list))
   then raise (RuntimeError ("src_list " +:+ PyStr.repr_list src_list +:+ " and dst_list "
                             +:+ PyStr.repr_list src_list +:+ " must be the same length"))
   else ret tt) ;;
  for_enumerate 0 src_list (s3_rename_body bucket dst_list keep_old make_public num_files).

(** *** s3_delete *)

(** The body of the loop of [s3_delete] (lines 221-232). *)
Definition s3_delete_body (bucket : bucket) (num_files idx : nat) (bkey : string) : M unit :=
  try_except
    (print (AttemptingDelete bkey (name bucket)) ;;
     Object_delete bucket bkey ;;
     let* per := percent_done (S idx) num_files in
     print (DoneDeleting (S idx) num_files per))
    is_Exception
    (fun exc => print (UnableToDelete bkey exc)).

Definition s3_delete (bucket : bucket) (bucket_keys : list string) : M unit :=
  let num_files := length bucket_keys in
  for_enumerate 0 bucket_keys (s3_delete_body bucket num_files).

(** *** s3_download *)

(** The body of the loop of [s3_download] (lines 267-315). *)
Definition s3_download_body (bucket : bucket) (local_files : list string)
    (num_files idx : nat) (bkey : string) : M unit :=
  let* bobj :=
    try_except (Object_get bucket bkey) is_ClientError
      (fun exc => print (NotInBucket bkey exc) ;; continue) in
  let s3_md5 := PyStr.strip dquote (e_tag bobj) in
  let* local_path := py_index local_files idx in
  let dirname := PyStr.dirname local_path in
  let* dirname_exists := os_path_exists dirname in
  (if negb dirname_exists then os_makedirs dirname else ret tt) ;;
  let* local_exists := os_path_exists local_path in
  (if local_exists
   then
     let* isdir := os_path_isdir local_path in
     (if isdir then continue else ret tt) ;;
     let* in_read := open_read local_path in
     let local_md5 := md5_hexdigest in_read in
     if String.eqb local_md5 s3_md5
     then print (SkippingDownloaded bkey)
     else
       try_except
         (print (Overwriting local_path) ;;
          let* callback := ProgressPercentage.__init__ (WithContentLength (content_length bobj)) in
          Bucket_download_file bucket bkey local_path callback)
         is_Exception
         (fun exc => print (CouldNotDownload bkey exc))
   else
     print (Downloading bkey local_path) ;;
     let* callback := ProgressPercentage.__init__ (WithContentLength (content_length bobj)) in
     Bucket_download_file bucket bkey local_path callback) ;;
  let* per := percent_done (S idx) num_files in
  print (FinishedFile (S idx) num_files per).

Definition s3_download (bucket : bucket) (s3_local_tuple : list string * list string) : M unit :=
  let s3_list := fst s3_local_tuple in
  let local_files := snd s3_local_tuple in
  let num_files := length s3_list in
  for_enumerate 0 s3_list (s3_download_body bucket local_files num_files).

(** *** s3_upload *)

(** "Check for s3_prefix" (lines 373-379): the pair of paths the rest of
    the iteration works with. *)
Definition strip_s3_prefix (s3_str src_file dst_file : string) : M (string * string) :=
  if PyStr.startswith src_file s3_str then
    let* bucket_name := py_index (PyStr.split "/"%char src_file) 2 in
    ret (PyStr.lstrip "/"%char (PyStr.replace src_file (s3_str +:+ bucket_name) EmptyString), dst_file)
  else if PyStr.startswith dst_file s3_str then
    let* bucket_name := py_index (PyStr.split "/"%char dst_file) 2 in
    ret (src_file, PyStr.lstrip "/"%char (PyStr.replace dst_file (s3_str +:+ bucket_name) EmptyString))
  else ret (src_file, dst_file).

(** [bucket.upload_file(src_file, dst_file, ExtraArgs=extra_args,
    Callback=ProgressPercentage(src_file))]: the tracker is built first. *)
Definition upload_with_progress (bucket : bucket) (src_file dst_file : string)
    (extra_args : gmap string string) : M unit :=
  let* callback := ProgressPercentage.__init__ (LocalPath src_file) in
  Bucket_upload_file bucket src_file dst_file extra_args callback.

(** The body of the loop of [s3_upload] (lines 369-405). *)
Definition s3_upload_body (bucket : bucket) (s3_list : list string) (s3_str : string)
    (extra_args : gmap string string) (num_files idx : nat) (src_file : string) : M unit :=
  let* dst_file := py_index s3_list idx in
  let* paths := strip_s3_prefix s3_str src_file dst_file in
  let src_file := fst paths in
  let dst_file := snd paths in
  print (UploadingAs src_file (name bucket) dst_file) ;;
  try_except
    (let* dst_key := Object_get bucket dst_file in
     let dst_md5 := PyStr.strip dquote (e_tag dst_key) in
     let* src_read := open_read src_file in
     let src_md5 := md5_hexdigest src_read in
     if negb (String.eqb src_md5 dst_md5)
     then upload_with_progress bucket src_file dst_file extra_args
     else ret tt)
    is_ClientError
    (fun _ => upload_with_progress bucket src_file dst_file extra_args) ;;
  let* per := percent_done (S idx) num_files in
  print (FinishedFile (S idx) num_files per).

Definition s3_upload (bucket : bucket) (local_s3_tuple : list string * list string)
    (make_public encrypt : bool) : M unit :=
  let local_list := fst local_s3_tuple in
  let s3_list := snd local_s3_tuple in
  let num_files := length local_list in
  let s3_str := "s3://" in
  let extra_args : gmap string string := ∅ in
  let extra_args := if make_public then <["ACL" := "public-read"]> extra_args else extra_args in
  let extra_args := if encrypt then <["ServerSideEncryption" := "AES256"]> extra_args else extra_args in
  (if negb (Nat.eqb num_files (length s3_list))
   then raise (RuntimeError "local_list and s3_list must be the same length!")
   else ret tt) ;;
  for_enumerate 0 local_list (s3_upload_body bucket s3_list s3_str extra_args num_files).

End aws_utils.

(** ** What the statements observe *)

(** The requests a statement adds to the record when it is run from [w]. *)
Definition issued {A : Type} (m : M A) (w : world) : list call :=
  drop (length (calls w)) (calls (m w).1).

(** The lines a statement prints when it is run from [w]. *)
Definition printed {A : Type} (m : M A) (w : world) : list line :=
  drop (length (stdout w)) (stdout (m w).1).

(** What [bucket.Object(key).get()] answers in [w]. *)
Definition lookup (b : bucket) (w : world) (key : string) : exn + s3object :=
  match faults b (Get key) with
  | Some f => inl (exn_of_fault f)
  | None =>
      match objects w !! key with
      | Some obj => inr obj
      | None => inl (ClientError "NoSuchKey")
      end
  end.


(** A statement that raises no [RuntimeError], whatever the world. *)
Definition no_RuntimeError {A : Type} (m : M A) : Prop :=
  forall w msg, (m w).2 <> Raised (RuntimeError msg).

(** The bucket after the loop: the keys whose request went through are gone. *)
Definition delete_all (b : bucket) (keys : list string) (m : gmap string s3object) :
    gmap string s3object :=
  foldl (fun m key => match faults b (Delete key) with Some _ => m | None => delete key m end)
        m keys.

(** The running totals a tracker shows when it starts from [seen_so_far]
    and receives [chunks] one after the other. *)
Fixpoint running_totals (seen_so_far : Z) (chunks : list Z) : list Z :=
  match chunks with
  | [] => []
  | bytes_amount :: rest =>
      (seen_so_far + bytes_amount)%Z :: running_totals (seen_so_far + bytes_amount)%Z rest
  end.


(** The [try] statement of [s3_upload] (lines 388-401) on its own, as the
    loop body runs it once the two paths are known. *)
Definition upload_decision (md5_hexdigest : string -> string) (bucket : bucket)
    (src_file dst_file : string) (extra_args : gmap string string) : M unit :=
  try_except
    (let* dst_key := Object_get bucket dst_file in
     let dst_md5 := PyStr.strip dquote (e_tag dst_key) in
     let* src_read := open_read src_file in
     let src_md5 := md5_hexdigest src_read in
     if negb (String.eqb src_md5 dst_md5)
     then upload_with_progress bucket src_file dst_file extra_args
     else ret tt)
    is_ClientError
    (fun _ => upload_with_progress bucket src_file dst_file extra_args).


(** The [ExtraArgs] that [s3_upload] builds from its two flags (lines 354-362). *)
Definition extra_args_of (make_public encrypt : bool) : gmap string string :=
  let extra_args : gmap string string := ∅ in
  let extra_args := if make_public then <["ACL" := "public-read"]> extra_args else extra_args in
  if encrypt then <["ServerSideEncryption" := "AES256"]> extra_args else extra_args.

(** [old in s] *)
Fixpoint occurs (old s : string) : bool :=
  match s with
  | EmptyString => String.prefix old EmptyString
  | String _ s' => String.prefix old s || occurs old s'
  end.

(** [c not in s] *)
Fixpoint free_of (c : ascii) (s : string) : bool :=
  match s with
  | EmptyString => true
  | String a s' => negb (Ascii.eqb a c) && free_of c s'
  end.

(** The [ACL] argument of [copy_from] for a value of [make_public]. *)
Definition acl_of (make_public : bool) : option string :=
  if make_public then Some "public-read" else None.

(** ** A bucket and a machine to run the functions on *)

Definition no_faults : call -> option fault := fun _ => None.

(** A stand-in for [hashlib.md5(..).hexdigest()] in the runs below: distinct
    contents get distinct digests. *)
Definition sample_hexdigest (data : string) : string := "md5-" +:+ data.

(** The ETag of an object uploaded in one part: its MD5 between quotes. *)
Definition quoted (digest : string) : string :=
  String dquote (digest +:+ String dquote EmptyString).

Definition sample_bucket : bucket :=
  Bucket "fcp-indi" no_faults (fun data => quoted (sample_hexdigest data)).

Definition sample_object (data : string) : s3object :=
  S3Object data (quoted (sample_hexdigest data)).

(** One object in the bucket; one file and its directory on the disk. *)
Definition sample_world : world :=
  World (<["old/a" := sample_object "AAA"]> ∅)
        (<["/tmp/a.txt" := File "hello"]> (<["/tmp" := Dir]> (<["/" := Dir]> ∅)))
        [] [].

#[global] Instance call_eq_dec : EqDecision call.
Proof. solve_decision. Defined.

(** Five objects, for the bulk delete. *)
Definition five_keys : list string := ["k1"; "k2"; "k3"; "k4"; "k5"].

Definition five_keys_world : world :=
  World (list_to_map (map (fun key => (key, sample_object key)) five_keys)) ∅ [] [].

(** Two objects to fetch into a directory that is not there yet. *)
Definition two_objects_world : world :=
  World (<["old/b" := sample_object "BBB"]> (<["old/a" := sample_object "AAA"]> ∅))
        (<["/tmp" := Dir]> (<["/" := Dir]> ∅))
        [] [].

(** A file named by a relative path, in an empty bucket. *)
Definition relative_file_world : world :=
  World ∅ (<["tmp/a.txt" := File "hello"]> (<["tmp" := Dir]> ∅)) [] [].

(** The same bucket when the request [c] fails with [f]. *)
Definition failing (c : call) (f : fault) (b : bucket) : bucket :=
  Bucket (name b) (fun c' => if decide (c' = c) then Some f else faults b c') (etag_of b).

(** * The rest of the package

    [md5_sum] and [test_bucket_access] of aws_utils.py, and the module
    [fetch_creds] that the latter calls. *)

(** ** md5_sum *)

(** The two lines [md5_sum] prints for a key it keeps. *)
Inductive md5_line : Type :=
| FilenameLine (filename : string)
| Md5SumLine (md5_sum_val : string).

(** What [md5_sum] raises: a failure of the listing, or the
    [AttributeError] of an attribute that an object lacks. *)
Inductive md5_error : Type :=
| ListingError (e : exn)
| AttributeError (attribute : string).

(** [bucket.objects.filter(Prefix=prefix)]: the objects whose key starts
    with [prefix], by increasing key. *)
Definition objects_filter (prefix : string) (w : world) : list (string * s3object) :=
  merge_sort (fun x y => String.le x.1 y.1)
    (filter (fun kv => PyStr.startswith kv.1 prefix = true) (map_to_list (objects w))).

Section md5_sum.

(** [bkey.etag] of a listed object, [None] when the object has no
    attribute of that name (boto3 calls the ETag of an object summary
    [e_tag]). *)
Variable etag : s3object -> option string.

(** The loop of [md5_sum] (lines 96-102) from the dictionary and the lines
    printed so far. *)
Fixpoint md5_sum_loop (filt_str : string) (blist : list (string * s3object))
    (md5_dict : gmap string string) (out : list md5_line) :
    list md5_line * (md5_error + gmap string string) :=
  match blist with
  | [] => (out, inr md5_dict)
  | bkey :: blist' =>
      let filename := bkey.1 in
      if occurs filt_str filename then
        match etag bkey.2 with
        | None => (out, inl (AttributeError "etag"))
        | Some e =>
            let md5_sum_val := PyStr.strip dquote e in
            md5_sum_loop filt_str blist' (<[filename := md5_sum_val]> md5_dict)
              (out ++ [FilenameLine filename; Md5SumLine md5_sum_val])
        end
      else md5_sum_loop filt_str blist' md5_dict out
  end.

(** [md5_sum(bucket, prefix, filt_str)] on the bucket of [w]: the lines it
    prints and what it returns.  The listing is answered as a whole;
    [listing_fault] is what it fails with, when it fails. *)
Definition md5_sum (listing_fault : option fault) (prefix filt_str : string) (w : world) :
    list md5_line * (md5_error + gmap string string) :=
  match listing_fault with
  | Some f => ([], inl (ListingError (exn_of_fault f)))
  | None =>
      let blist := objects_filter prefix w in
      let md5_dict : gmap string string := ∅ in
      md5_sum_loop filt_str blist md5_dict []
  end.

End md5_sum.

(** ** indi_aws.fetch_creds: the credentials file and the bucket

    The credentials file is one of the local files.  The service is
    reached through [head_bucket] only; what it answers to a client and
    what [int] makes of an error code are parameters.  The strings are
    strings of bytes, as everywhere else. *)

Module fetch_creds.

(** Carriage return and line feed. *)
Definition cr : ascii := "013"%char.
Definition lf : ascii := "010"%char.

(** What the functions of the module raise: [Exception(err_msg)] of their
    own, or an exception of Python or of the client library. *)
Inductive error : Type :=
| Exception (err_msg : string)
| Builtin (e : exn).

(** [f.readline()] of a file opened in text mode: the line up to its end
    and what is left to read.  Either of LF, CR LF and CR ends a line and
    is handed over as LF (universal newlines); the last line may lack it,
    and at the end of the file the line is empty. *)
Fixpoint readline (s : string) : string * string :=
  match s with
  | EmptyString => (EmptyString, EmptyString)
  | String a s' =>
      if Ascii.eqb a lf then (String lf EmptyString, s')
      else if Ascii.eqb a cr then
        (String lf EmptyString,
         match s' with
         | String b s'' => if Ascii.eqb b lf then s'' else s'
         | EmptyString => s'
         end)
      else let (row, rest) := readline s' in (String a row, rest)
  end.

(** [l[idx]] *)
Definition index (l : list string) (idx : nat) : error + string :=
  match l !! idx with
  | Some x => inr x
  | None => inl (Builtin IndexError)
  end.

(** [key.replace('\r', '').replace('\n', '')] *)
Definition strip_newlines (key : string) : string :=
  PyStr.replace (PyStr.replace key (String cr EmptyString) EmptyString)
    (String lf EmptyString) EmptyString.

(** [return_aws_keys(creds_path)] on the files [fs]. *)
Definition return_aws_keys (creds_path : string) (fs : gmap string node) :
    error + (string * string) :=
  match fs !! creds_path with
  | None => inl (Builtin (OSError "FileNotFoundError"))
  | Some Dir => inl (Builtin (OSError "IsADirectoryError"))
  | Some (File creds_in) =>
      let (row1, creds_in) := readline creds_in in
      let (row2, _) := readline creds_in in
      let keys :=
        if occurs "User Name" row1 then
          match index (PyStr.split "," row2) 1 with
          | inl exc => inl exc
          | inr aws_access_key_id =>
              match index (PyStr.split "," row2) 2 with
              | inl exc => inl exc
              | inr aws_secret_access_key => inr (aws_access_key_id, aws_secret_access_key)
              end
          end
        else if occurs "AWSAccessKeyId" row1 then
          match index (PyStr.split "=" row1) 1 with
          | inl exc => inl exc
          | inr aws_access_key_id =>
              match index (PyStr.split "=" row2) 1 with
              | inl exc => inl exc
              | inr aws_secret_access_key => inr (aws_access_key_id, aws_secret_access_key)
              end
          end
        else inl (Exception "Credentials file not recognized, check file is correct") in
      match keys with
      | inl exc => inl exc
      | inr (aws_access_key_id, aws_secret_access_key) =>
          inr (strip_newlines aws_access_key_id, strip_newlines aws_secret_access_key)
      end
  end.

(** The lines [return_bucket] prints, with the arguments their format
    shows (the exception handed to [format] by lines 94 and 128 has no
    field in the format string). *)
Inductive message : Type :=
| ProblemExtracting (creds_path : string)
| ConnectingWithCredentials (bucket_name creds_path : string)
| ConnectingToAWS (bucket_name : string)
| BucketDoesNotExist (bucket_name : string)
| UnableToConnect (bucket_name : string).

(** The client of the S3 resource: the keys of its session ([None] for
    the ones boto3 finds by itself) and whether it still signs its
    requests.  The bucket that is returned shares it. *)
Record client : Type := Client {
  keys : option (string * string);
  signing : bool
}.

Record bucket_resource : Type := BucketResource {
  bucket_name_of : string;
  client_of : client
}.

(** What [return_bucket] leaves behind: the lines printed and, for each
    [head_bucket] request sent, the client that sent it. *)
Record trace : Type := Trace {
  messages : list message;
  head_requests : list client
}.

Definition say (m : message) (t : trace) : trace :=
  Trace (messages t ++ [m]) (head_requests t).

Definition sent (c : client) (t : trace) : trace :=
  Trace (messages t) (head_requests t ++ [c]).

Section return_bucket.

(** [int(code)] of an error code, [None] when it raises [ValueError]. *)
Variable int : string -> option Z.

(** The answer to [head_bucket(Bucket=bucket_name)] from a client: nothing
    when the bucket is there and may be read, else what goes wrong. *)
Variable head_bucket : client -> string -> option fault.

(** The inner function [tryout] (lines 115-128). *)
Definition tryout (c : client) (bucket_name : string) (t : trace) : trace * (error + unit) :=
  let t := sent c t in
  match head_bucket c bucket_name with
  | None => (t, inr tt)
  | Some (ClientFailure what) => (t, inl (Builtin (BotoError what)))
  | Some (ServiceError code) =>
      match int code with
      | None => (t, inl (Builtin (ValueError code)))
      | Some error_code =>
          if Z.eqb error_code 403 then (t, inl (Builtin (ClientError code)))
          else if Z.eqb error_code 404 then
            (say (BucketDoesNotExist bucket_name) t, inl (Builtin (ClientError code)))
          else (say (UnableToConnect bucket_name) t, inr tt)
      end
  end.

(** Lines 113-137: the bucket of a session with the keys [session_keys]. *)
Definition checked_bucket (session_keys : option (string * string)) (bucket_name : string)
    (t : trace) : trace * (error + bucket_resource) :=
  let s3_resource := Client session_keys true in
  match tryout s3_resource bucket_name t with
  | (t, inr _) => (t, inr (BucketResource bucket_name s3_resource))
  | (t, inl _) =>
      let s3_resource := Client session_keys false in
      match tryout s3_resource bucket_name t with
      | (t, inr _) => (t, inr (BucketResource bucket_name s3_resource))
      | (t, inl exc) => (t, inl exc)
      end
  end.

(** [return_bucket(creds_path, bucket_name)], boto3 being installed.  A
    [creds_path] that is [None] goes the way of the empty string. *)
Definition return_bucket (creds_path bucket_name : string) (fs : gmap string node)
    (t : trace) : trace * (error + bucket_resource) :=
  if negb (String.eqb creds_path EmptyString) then
    match return_aws_keys creds_path fs with
    | inl exc => (say (ProblemExtracting creds_path) t, inl exc)
    | inr (aws_access_key_id, aws_secret_access_key) =>
        checked_bucket (Some (aws_access_key_id, aws_secret_access_key)) bucket_name
          (say (ConnectingWithCredentials bucket_name creds_path) t)
    end
  else checked_bucket None bucket_name (say (ConnectingToAWS bucket_name) t).

(** Whether [tryout] returns for this client: the bucket answers, or it
    fails with an error code that is a number other than 403 and 404. *)
Definition passes (c : client) (bucket_name : string) : bool :=
  match head_bucket c bucket_name with
  | None => true
  | Some (ClientFailure _) => false
  | Some (ServiceError code) =>
      match int code with
      | Some error_code => negb (Z.eqb error_code 403) && negb (Z.eqb error_code 404)
      | None => false
      end
  end.

End return_bucket.

(** The fields of a credentials file: no line end and no separator in them. *)
Definition field (sep : ascii) (s : string) : bool :=
  free_of sep s && free_of cr s && free_of lf s.

(** The line ends of a text file. *)
Definition line_end (eol : string) : Prop :=
  eol = String lf EmptyString \/ eol = String cr (String lf EmptyString).

(** The end of a file after its last field: nothing, or a line end and
    whatever follows. *)
Definition rest_of_file (s : string) : Prop :=
  s = EmptyString \/ exists eol rest, line_end eol /\ s = eol +:+ rest.

End fetch_creds.

(** ** More of Python's strings and paths *)

Module PyText.

(** [c.lower()] of an ASCII character. *)
Definition lower_char (c : ascii) : ascii :=
  let n := nat_of_ascii c in
  if (65 <=? n)%nat && (n <=? 90)%nat then ascii_of_nat (n + 32) else c.

(** [s.lower()], on ASCII letters. *)
Fixpoint lower (s : string) : string :=
  match s with
  | EmptyString => EmptyString
  | String c s' => String (lower_char c) (lower s')
  end.

(** [sep.join(l)] *)
Fixpoint join (sep : string) (l : list string) : string :=
  match l with
  | [] => EmptyString
  | [x] => x
  | x :: l' => x +:+ sep +:+ join sep l'
  end.

(** [s.endswith(c)] for a character [c]. *)
Fixpoint endswith (s : string) (c : ascii) : bool :=
  match s with
  | EmptyString => false
  | String a EmptyString => Ascii.eqb a c
  | String _ s' => endswith s' c
  end.

End PyText.

Module posixpath.

(** [os.path.join(a, b)] *)
Definition join (a b : string) : string :=
  if PyStr.startswith b "/" then b
  else if String.eqb a EmptyString || PyText.endswith a "/" then a +:+ b
  else a +:+ "/" +:+ b.

(** [os.path.basename(p)]: what follows the last slash. *)
Fixpoint basename (p : string) : string :=
  match p with
  | EmptyString => EmptyString
  | String _ p' => if free_of "/" p then p else basename p'
  end.

End posixpath.

(** ** test_bucket_access *)

(** The two lines [test_bucket_access] prints. *)
Inductive access_message : Type :=
| WriteAccessConfirmed
| WriteAccessNotAvailable.

(** [with open(p, 'w') as f: f.write(content)]: the directory of [p] has
    to be there, and [p] must be no directory. *)
Definition open_write (p content : string) : M unit :=
  let* n := gets (fun w => files w !! p) in
  match n with
  | Some Dir => raise (OSError "IsADirectoryError")
  | _ =>
      let parent := PyStr.dirname p in
      let* there :=
        if String.eqb parent EmptyString then ret (negb (String.eqb p EmptyString))
        else os_path_isdir parent in
      if there then modify (set_files (insert p (File content)))
      else raise (OSError "FileNotFoundError")
  end.

(** [bucket.upload_file(filename, key)], with neither [ExtraArgs] nor a
    callback. *)
Definition Bucket_upload_file_plain (b : bucket) (filename key : string) : M unit :=
  request b (UploadFile filename key ∅) ;;
  let* content := open_read filename in
  modify (set_objects (insert key (S3Object content (etag_of b content)))).

(** Lines 445-448: the scheme of an [s3://] path is put in lower case. *)
Definition lower_scheme (output_directory : string) : string :=
  if PyStr.startswith (PyText.lower output_directory) "s3://" then
    match PyStr.split "/" output_directory with
    | scheme :: out_dir_sp => PyText.join "/" (PyText.lower scheme :: out_dir_sp)
    | [] => EmptyString
    end
  else output_directory.

(** Line 451, on the directory that [lower_scheme] returns. *)
Definition bucket_name_in (output_directory : string) : string :=
  match PyStr.split "/" (PyStr.replace output_directory "s3://" EmptyString) with
  | bucket_name :: _ => bucket_name
  | [] => EmptyString
  end.

(** Lines 462-464. *)
Definition write_test_key_in (output_directory bucket_name test_file : string) : string :=
  let rel_key_path :=
    PyStr.lstrip "/"
      (PyStr.replace output_directory (posixpath.join "s3://" bucket_name) EmptyString) in
  posixpath.join rel_key_path (posixpath.basename test_file).

Section test_bucket_access.

Import fetch_creds.

Variable int : string -> option Z.
Variable head_bucket : client -> string -> option fault.

(** What the bucket behind a resource refuses, and the ETags it gives. *)
Variable s3_faults : bucket_resource -> call -> option fault.
Variable s3_etag : string -> string.

Definition boto3_bucket (b : bucket_resource) : bucket :=
  Bucket (bucket_name_of b) (s3_faults b) s3_etag.

(** Lines 467-476: the [try] statement, with the lines it prints. *)
Definition write_attempt (b : bucket) (test_file write_test_key : string) (w : world) :
    world * list access_message * (exn + bool) :=
  match Bucket_upload_file_plain b test_file write_test_key w with
  | (w, Raised exc) =>
      if is_ClientError exc then (w, [WriteAccessNotAvailable], inr false)
      else (w, [], inl exc)
  | (w, _) =>
      match Object_delete b write_test_key w with
      | (w, Raised exc) =>
          if is_ClientError exc
          then (w, [WriteAccessConfirmed; WriteAccessNotAvailable], inr false)
          else (w, [WriteAccessConfirmed], inl exc)
      | (w, _) => (w, [WriteAccessConfirmed], inr true)
      end
  end.

(** [test_bucket_access(creds_path, output_directory)], [test_file] being
    the name that [tempfile.mktemp()] hands out.  It returns the world it
    leaves, what [return_bucket] did and the lines printed, with its
    result. *)
Definition test_bucket_access (test_file creds_path output_directory : string)
    (w : world) (t : trace) : world * trace * list access_message * (error + bool) :=
  let output_directory := lower_scheme output_directory in
  let bucket_name := bucket_name_in output_directory in
  match return_bucket int head_bucket creds_path bucket_name (files w) t with
  | (t, inl exc) => (w, t, [], inl exc)
  | (t, inr bucket) =>
      match open_write test_file "test123" w with
      | (w, Raised exc) => (w, t, [], inl (Builtin exc))
      | (w, _) =>
          let write_test_key := write_test_key_in output_directory bucket_name test_file in
          match write_attempt (boto3_bucket bucket) test_file write_test_key w with
          | (w, said, inr s3_write_access) => (w, t, said, inr s3_write_access)
          | (w, said, inl exc) => (w, t, said, inl (Builtin exc))
          end
      end
  end.

End test_bucket_access.

(** ** What a statement leaves as it is

    The relations between the world before and the world after that the
    functions are shown to keep, and the requests each of them may send. *)

(** [m] takes every world to one that [R] relates to it. *)
Definition keeps {A : Type} (R : world -> world -> Prop) (m : M A) : Prop :=
  forall w, R w (m w).1.

(** [m] leaves the world as it finds it. *)
Definition unchanged {A : Type} (m : M A) : Prop := forall w, (m w).1 = w.

(** The bucket holds the same objects. *)
Definition same_objects (w w' : world) : Prop := objects w' = objects w.

(** The disk holds the same files. *)
Definition same_files (w w' : world) : Prop := files w' = files w.

(** No key has left the bucket. *)
Definition keys_kept (w w' : world) : Prop :=
  forall key, is_Some (objects w !! key) -> is_Some (objects w' !! key).

(** The object [obj], if it is under [key], is still there. *)
Definition object_stays (key : string) (obj : s3object) (w w' : world) : Prop :=
  objects w !! key = Some obj -> objects w' !! key = Some obj.

(** The requests sent in between all satisfy [P]. *)
Definition calls_within (P : call -> Prop) (w w' : world) : Prop :=
  exists cs, calls w' = calls w ++ cs /\ Forall P cs.

(** The requests of a download: lookups and transfers to the disk. *)
Definition download_request (c : call) : bool :=
  match c with Get _ | DownloadFile _ _ => true | _ => false end.

(** The requests of an upload with the arguments [extra_args]. *)
Definition upload_request (extra_args : gmap string string) (c : call) : bool :=
  match c with
  | Get _ => true
  | UploadFile _ _ extra => bool_decide (extra = extra_args)
  | _ => false
  end.

(** The requests of a rename; a delete only when the source is not kept. *)
Definition rename_request (keep_old : bool) (c : call) : bool :=
  match c with
  | Get _ | CopyFrom _ _ _ => true
  | Delete _ => negb keep_old
  | _ => false
  end.

(** The percentage that [__call__] prints for a running total. *)
Definition percentage_of (seen_so_far total : Z) : Q :=
  if Z.eqb total 0 then 0%Q else (inject_Z seen_so_far / inject_Z total * 100)%Q.

(** ** More to run the functions on *)

(** The object in the bucket and the file on the disk hold the same text. *)
Definition mirrored_world : world :=
  World (<["old/a" := sample_object "hello"]> ∅) (files sample_world) [] [].

(** An object summary that answers [etag] with its ETag. *)
Definition etag_present (obj : s3object) : option string := Some (e_tag obj).

(** An object summary without [etag]. *)
Definition etag_missing (obj : s3object) : option string := None.

Section fetch_creds_runs.

Import fetch_creds.

Definition crlf : string := String cr (String lf EmptyString).

(** The keys of a root account, as AWS writes them. *)
Definition root_credentials : string :=
  "AWSAccessKeyId=AKIDEXAMPLE" +:+ crlf +:+ "AWSSecretKey=SECRETEXAMPLE" +:+ crlf.

(** The keys of a user; the last line has no line end. *)
Definition user_credentials : string :=
  "User Name,Access Key Id,Secret Access Key" +:+ String lf "alice,AKIDEXAMPLE,SECRETEXAMPLE".

Definition credentials_files : gmap string node :=
  <["/home/root.csv" := File root_credentials]>
    (<["/home/user.csv" := File user_credentials]>
       (<["/home/header.csv" := File "User Name,Access Key Id,Secret Access Key"]> ∅)).

(** [int] on the strings of decimal digits. *)
Definition digit (c : ascii) : option Z :=
  let n := nat_of_ascii c in
  if (48 <=? n)%nat && (n <=? 57)%nat then Some (Z.of_nat (n - 48)) else None.

Fixpoint decimal_from (acc : Z) (s : string) : option Z :=
  match s with
  | EmptyString => Some acc
  | String c s' =>
      match digit c with
      | Some d => decimal_from (10 * acc + d) s'
      | None => None
      end
  end.

Definition decimal (s : string) : option Z :=
  match s with
  | EmptyString => None
  | _ => decimal_from 0 s
  end.

(** A bucket that everybody may read and that the keys at hand may not. *)
Definition public_bucket (c : client) (bucket_name : string) : option fault :=
  if signing c then Some (ServiceError "403") else None.

(** No bucket of that name. *)
Definition no_bucket (c : client) (bucket_name : string) : option fault :=
  Some (ServiceError "404").

Definition no_trace : trace := Trace [] [].

(** A bucket that answers every client. *)
Definition open_bucket (c : client) (bucket_name : string) : option fault := None.

(** A bucket that takes what is written and refuses to delete it. *)
Definition write_only (b : bucket_resource) (c : call) : option fault :=
  match c with
  | Delete _ => Some (ServiceError "AccessDenied")
  | _ => None
  end.

Definition access_test_passed :=
  test_bucket_access decimal open_bucket (fun _ => no_faults) (etag_of sample_bucket)
    "/tmp/tmpk3x9" EmptyString "S3://fcp-indi/out/dir" sample_world no_trace.

Definition access_test_left_over :=
  test_bucket_access decimal open_bucket write_only (etag_of sample_bucket)
    "/tmp/tmpk3x9" EmptyString "S3://fcp-indi/out/dir" sample_world no_trace.

End fetch_creds_runs.

(** * Properties *)

(** ** The string methods on the paths the module meets *)

Example split_qualified :
  PyStr.split "/" "s3://fcp-indi/data/a.txt" = ["s3:"; EmptyString; "fcp-indi"; "data"; "a.txt"].
Proof. reflexivity. Qed.

Example split_bare_prefix : PyStr.split "/" "s3://" = ["s3:"; EmptyString; EmptyString].
Proof. reflexivity. Qed.

Example replace_prefix :
  PyStr.replace "s3://fcp-indi/data/a.txt" "s3://fcp-indi" EmptyString = "/data/a.txt".
Proof. reflexivity. Qed.

Example replace_every_occurrence :
  PyStr.replace "abcabcab" "abc" "-" = "--ab" /\ PyStr.replace "aaa" "aa" "b" = "ba".
Proof. split; reflexivity. Qed.

Example strip_etag :
  PyStr.strip dquote (quoted "900150983cd24fb0d6963f7d28e17f72")
  = "900150983cd24fb0d6963f7d28e17f72".
Proof. reflexivity. Qed.

Example lstrip_slashes : PyStr.lstrip "/" "//data/a.txt/" = "data/a.txt/".
Proof. reflexivity. Qed.

Example dirname_paths :
  PyStr.dirname "/tmp/out/a.txt" = "/tmp/out" /\ PyStr.dirname "a.txt" = EmptyString
  /\ PyStr.dirname "/a.txt" = "/" /\ PyStr.dirname "out//a" = "out"
  /\ PyStr.dirname "/tmp/out/" = "/tmp/out".
Proof. repeat split. Qed.

Example makedirs_nested :
  makedirs_in 9 "/tmp/a/b" (files sample_world)
  = inr (<["/tmp/a/b" := Dir]> (<["/tmp/a" := Dir]> (files sample_world))).
Proof. reflexivity. Qed.

Example makedirs_empty_path :
  os_makedirs EmptyString sample_world = (sample_world, Raised (OSError "FileNotFoundError")).
Proof. reflexivity. Qed.

(** ** The monad *)

Lemma bind_Normal {A B : Type} (m : M A) (k : A -> M B) w w' a :
  m w = (w', Normal a) -> bind m k w = k a w'.
Proof. intros H. unfold bind. now rewrite H. Qed.

Lemma bind_Raised {A B : Type} (m : M A) (k : A -> M B) w w' e :
  m w = (w', Raised e) -> bind m k w = (w', Raised e).
Proof. intros H. unfold bind. now rewrite H. Qed.


(** ** The bucket *)

Lemma request_run b c w :
  request b c w =
  (add_call c w, match faults b c with Some f => Raised (exn_of_fault f) | None => Normal tt end).
Proof. unfold request, bind, modify. simpl. now destruct (faults b c). Qed.

Lemma Object_get_run b key w :
  Object_get b key w =
  (add_call (Get key) w, match lookup b w key with inl e => Raised e | inr obj => Normal obj end).
Proof.
  unfold Object_get, lookup, bind. rewrite request_run.
  destruct (faults b (Get key)); [reflexivity|].
  unfold gets. simpl. now destruct (objects w !! key).
Qed.

Lemma Object_delete_run b key w :
  Object_delete b key w =
  match faults b (Delete key) with
  | Some f => (add_call (Delete key) w, Raised (exn_of_fault f))
  | None => (set_objects (delete key) (add_call (Delete key) w), Normal tt)
  end.
Proof.
  unfold Object_delete, bind. rewrite request_run.
  now destruct (faults b (Delete key)).
Qed.

Lemma removeprefix_app p s : PyStr.removeprefix p (p +:+ s) = Some s.
Proof.
  induction p as [|a p IH]; [reflexivity|].
  change (String a p +:+ s) with (String a (p +:+ s)). simpl.
  now rewrite Ascii.eqb_refl.
Qed.

Lemma append_assoc (a b c : string) : (a +:+ b) +:+ c = a +:+ b +:+ c.
Proof.
  induction a as [|x a IH]; [reflexivity|].
  change (String x ((a +:+ b) +:+ c) = String x (a +:+ b +:+ c)).
  now rewrite IH.
Qed.

Lemma Object_copy_from_run b key src acl w :
  faults b (CopyFrom key (name b +:+ "/" +:+ src) acl) = None ->
  Object_copy_from b key (name b +:+ "/" +:+ src) acl w =
  match objects w !! src with
  | Some obj =>
      (set_objects (insert key obj) (add_call (CopyFrom key (name b +:+ "/" +:+ src) acl) w),
       Normal tt)
  | None => (add_call (CopyFrom key (name b +:+ "/" +:+ src) acl) w, Raised (ClientError "NoSuchKey"))
  end.
Proof.
  intros Hf. unfold Object_copy_from, bind. rewrite request_run, Hf.
  rewrite <- append_assoc, removeprefix_app. unfold gets. simpl.
  now destruct (objects w !! src).
Qed.

Lemma lookup_add_call b c w key : lookup b (add_call c w) key = lookup b w key.
Proof. reflexivity. Qed.

Lemma lookup_add_line b l w key : lookup b (add_line l w) key = lookup b w key.
Proof. reflexivity. Qed.

Lemma lookup_present b w key obj :
  faults b (Get key) = None -> objects w !! key = Some obj -> lookup b w key = inr obj.
Proof. intros Hf Ho. unfold lookup. now rewrite Hf, Ho. Qed.

Lemma lookup_absent b w key :
  faults b (Get key) = None -> objects w !! key = None ->
  lookup b w key = inl (ClientError "NoSuchKey").
Proof. intros Hf Ho. unfold lookup. now rewrite Hf, Ho. Qed.

Lemma lookup_inr b w key obj :
  lookup b w key = inr obj -> objects w !! key = Some obj.
Proof.
  unfold lookup. destruct (faults b (Get key)); [discriminate|].
  destruct (objects w !! key); congruence.
Qed.

Create Rewrite HintDb store.
#[local] Hint Rewrite Object_get_run lookup_add_call lookup_add_line : store.

(** ** Observations *)

Lemma issued_app {A : Type} (m : M A) w cs :
  calls (m w).1 = calls w ++ cs -> issued m w = cs.
Proof. intros H. unfold issued. rewrite H. apply drop_app_length. Qed.

Lemma printed_app {A : Type} (m : M A) w ls :
  stdout (m w).1 = stdout w ++ ls -> printed m w = ls.
Proof. intros H. unfold printed. rewrite H. apply drop_app_length. Qed.

(** ** s3_rename: the three ways through the loop body *)

Lemma s3_rename_body_source_missing b dst_list keep_old make_public num_files idx src_f e w :
  lookup b w src_f = inl e ->
  s3_rename_body b dst_list keep_old make_public num_files idx src_f w =
  if is_ClientError e
  then (add_line (SourceMissing src_f) (add_call (Get src_f) w), Continued)
  else (add_call (Get src_f) w, Raised e).
Proof.
  intros Hsrc. unfold s3_rename_body, bind, try_except.
  rewrite Object_get_run, Hsrc. now destruct e.
Qed.

Lemma s3_rename_body_destination_exists
    b dst_list keep_old make_public num_files idx src_f dst_key o obj w :
  lookup b w src_f = inr o ->
  dst_list !! idx = Some dst_key ->
  lookup b w dst_key = inr obj ->
  s3_rename_body b dst_list keep_old make_public num_files idx src_f w =
  (add_line (DestinationExists dst_key) (add_call (Get dst_key) (add_call (Get src_f) w)),
   Continued).
Proof.
  intros Hsrc Hidx Hdst. unfold s3_rename_body, bind, try_except.
  rewrite Object_get_run, Hsrc. cbn [ret]. unfold py_index. rewrite Hidx. cbn [ret].
  autorewrite with store. rewrite Hdst. reflexivity.
Qed.

(** When the source is there and the lookup of the destination fails with a
    [ClientError], the copy is made; what is left is the optional delete and
    the status line. *)
Lemma s3_rename_body_copies
    b dst_list keep_old make_public num_files idx src_f dst_key obj code w :
  lookup b w src_f = inr obj ->
  dst_list !! idx = Some dst_key ->
  lookup b w dst_key = inl (ClientError code) ->
  faults b (CopyFrom dst_key (name b +:+ "/" +:+ src_f) (acl_of make_public)) = None ->
  let w1 := add_call (Get dst_key) (add_call (Get src_f) w) in
  let w2 := add_line (CopyingSource src_f dst_key) w1 in
  let w3 := if make_public then add_line MakingPublic w2 else w2 in
  let w4 := set_objects (insert dst_key obj)
              (add_call (CopyFrom dst_key (name b +:+ "/" +:+ src_f) (acl_of make_public)) w3) in
  s3_rename_body b dst_list keep_old make_public num_files idx src_f w =
  bind (if negb keep_old then Object_delete b src_f else ret tt)
       (fun _ => bind (percent_done (S idx) num_files)
                      (fun per => print (DoneRenaming (S idx) num_files per))) w4.
Proof.
  intros Hsrc Hidx Hdst Hcopy. unfold s3_rename_body, bind, try_except.
  rewrite Object_get_run, Hsrc. cbn [ret]. unfold py_index. rewrite Hidx. cbn [ret].
  autorewrite with store. rewrite Hdst. cbn [is_ClientError print modify].
  pose proof (lookup_inr _ _ _ _ Hsrc) as Hobj.
  destruct make_public; cbn [print modify]; rewrite Object_copy_from_run by exact Hcopy;
    cbn [objects add_line add_call]; rewrite Hobj; reflexivity.
Qed.

(** The status line at the end of an iteration changes neither the bucket nor
    the record of requests. *)
Lemma rename_status_run idx num_files w :
  let r := bind (percent_done (S idx) num_files)
                (fun per => print (DoneRenaming (S idx) num_files per)) w in
  objects r.1 = objects w /\ calls r.1 = calls w /\ files r.1 = files w
  /\ (num_files <> 0%nat -> r.2 = Normal tt).
Proof.
  unfold bind, percent_done. destruct num_files; simpl; repeat split; auto.
  intros H. now contradict H.
Qed.

Lemma s3_rename_single b src dst keep_old make_public w :
  s3_rename b ([src], [dst]) keep_old make_public w =
  match s3_rename_body b [dst] keep_old make_public 1 0 src w with
  | (w', Raised e) => (w', Raised e)
  | (w', _) => (w', Normal tt)
  end.
Proof.
  unfold s3_rename, bind. simpl.
  destruct (s3_rename_body b [dst] keep_old make_public 1 0 src w) as [w' [[]|e|]];
    reflexivity.
Qed.




Lemma s3_rename_single_world b src dst keep_old make_public w :
  (s3_rename b ([src], [dst]) keep_old make_public w).1 =
  (s3_rename_body b [dst] keep_old make_public 1 0 src w).1.
Proof.
  rewrite s3_rename_single.
  now destruct (s3_rename_body b [dst] keep_old make_public 1 0 src w) as [w' [[]|e|]].
Qed.




(** ** No RuntimeError out of the store or the loop *)

Lemma no_RuntimeError_ret {A : Type} (a : A) : no_RuntimeError (ret a).
Proof. intros w msg. discriminate. Qed.

Lemma no_RuntimeError_continue {A : Type} : no_RuntimeError (@continue A).
Proof. intros w msg. discriminate. Qed.

Lemma no_RuntimeError_print l : no_RuntimeError (print l).
Proof. intros w msg. discriminate. Qed.

Lemma no_RuntimeError_gets {A : Type} (f : world -> A) : no_RuntimeError (gets f).
Proof. intros w msg. discriminate. Qed.

Lemma no_RuntimeError_modify f : no_RuntimeError (modify f).
Proof. intros w msg. discriminate. Qed.

Lemma no_RuntimeError_bind {A B : Type} (m : M A) (k : A -> M B) :
  no_RuntimeError m -> (forall a, no_RuntimeError (k a)) -> no_RuntimeError (bind m k).
Proof.
  intros Hm Hk w msg. unfold bind. specialize (Hm w msg).
  destruct (m w) as [w' [a|e|]]; simpl in *; [apply Hk | | discriminate].
  intros [= ->]. now apply Hm.
Qed.

Lemma no_RuntimeError_try_except {A : Type} (m : M A) catches handler :
  no_RuntimeError m -> (forall e, no_RuntimeError (handler e)) ->
  no_RuntimeError (try_except m catches handler).
Proof.
  intros Hm Hh w msg. unfold try_except. specialize (Hm w msg).
  destruct (m w) as [w' [a|e|]]; simpl in *; try discriminate.
  destruct (catches e); [apply Hh | exact Hm].
Qed.

Lemma no_RuntimeError_if {A : Type} (c : bool) (m1 m2 : M A) :
  no_RuntimeError m1 -> no_RuntimeError m2 -> no_RuntimeError (if c then m1 else m2).
Proof. now destruct c. Qed.

Lemma no_RuntimeError_request b c : no_RuntimeError (request b c).
Proof.
  intros w msg. rewrite request_run. simpl.
  destruct (faults b c) as [[]|]; discriminate.
Qed.

Lemma no_RuntimeError_py_index {A : Type} (l : list A) idx : no_RuntimeError (py_index l idx).
Proof. intros w msg. unfold py_index. destruct (l !! idx); discriminate. Qed.

Lemma no_RuntimeError_percent_done done total : no_RuntimeError (percent_done done total).
Proof. intros w msg. destruct total; discriminate. Qed.

Lemma no_RuntimeError_raise {A : Type} (e : exn) :
  (forall msg, e <> RuntimeError msg) -> no_RuntimeError (@raise A e).
Proof. intros He w msg [= ->]. now apply (He msg). Qed.

Create HintDb no_rte discriminated.
#[local] Hint Resolve no_RuntimeError_ret no_RuntimeError_continue no_RuntimeError_print
  no_RuntimeError_gets no_RuntimeError_modify no_RuntimeError_request
  no_RuntimeError_py_index no_RuntimeError_percent_done : no_rte.

(** Walks down a statement built from the combinators above. *)
Ltac no_rte :=
  repeat first
    [ solve [auto with no_rte]
    | apply no_RuntimeError_raise; intros ?; discriminate
    | apply no_RuntimeError_if
    | apply no_RuntimeError_try_except; [|intros ?]
    | apply no_RuntimeError_bind; [|intros ?]
    | match goal with |- no_RuntimeError (match ?x with _ => _ end) => destruct x end ].

Lemma no_RuntimeError_Object_get b key : no_RuntimeError (Object_get b key).
Proof. unfold Object_get. no_rte. Qed.

Lemma no_RuntimeError_Object_delete b key : no_RuntimeError (Object_delete b key).
Proof. unfold Object_delete. no_rte. Qed.

Lemma no_RuntimeError_Object_copy_from b key copy_source acl :
  no_RuntimeError (Object_copy_from b key copy_source acl).
Proof. unfold Object_copy_from. no_rte. Qed.

#[local] Hint Resolve no_RuntimeError_Object_get no_RuntimeError_Object_delete
  no_RuntimeError_Object_copy_from : no_rte.

Lemma no_RuntimeError_s3_rename_body b dst_list keep_old make_public num_files idx src_f :
  no_RuntimeError (s3_rename_body b dst_list keep_old make_public num_files idx src_f).
Proof. unfold s3_rename_body. no_rte. Qed.

Lemma no_RuntimeError_for_enumerate {A : Type} (body : nat -> A -> M unit) l :
  (forall idx x, no_RuntimeError (body idx x)) ->
  forall idx, no_RuntimeError (for_enumerate idx l body).
Proof.
  intros Hbody. induction l as [|x l IH]; intros idx w msg; [discriminate|].
  simpl. specialize (Hbody idx x w msg).
  destruct (body idx x w) as [w' [[]|e|]]; simpl in *; [apply IH | exact Hbody | apply IH].
Qed.

(** C10: when the two lists of [s3_rename] differ in length the first check
    raises [ValueError] before anything else happens, and no call of
    [s3_rename] (whatever the lists, the bucket and its faults) ends in a
    [RuntimeError]: the branch of the second check is dead. *)
Theorem s3_rename_RuntimeError_unreachable b (src_dst_tuple : list string * list string)
    keep_old make_public w :
  (length src_dst_tuple.1 <> length src_dst_tuple.2 ->
   s3_rename b src_dst_tuple keep_old make_public w =
   (w, Raised (ValueError "src_list and dst_list are different lengths!")))
  /\ (forall msg, (s3_rename b src_dst_tuple keep_old make_public w).2 <> Raised (RuntimeError msg)).
Proof.
  destruct src_dst_tuple as [src_list dst_list]. cbn [fst snd].
  unfold s3_rename, bind. cbn [fst snd].
  destruct (Nat.eqb_spec (length src_list) (length dst_list)) as [Heq|Hne]; cbn [negb].
  - split; [intros Hne; now contradict Hne|].
    intros msg. cbn [ret].
    apply no_RuntimeError_for_enumerate. intros idx x.
    apply no_RuntimeError_s3_rename_body.
  - split; [reflexivity|]. intros msg. discriminate.
Qed.

Lemma s3_rename_RuntimeError_unreachable_witness :
  s3_rename sample_bucket (["old/a"; "old/b"], ["new/a"]) false false sample_world =
  (sample_world, Raised (ValueError "src_list and dst_list are different lengths!")).
Proof.
  apply (proj1 (s3_rename_RuntimeError_unreachable sample_bucket
                  (["old/a"; "old/b"], ["new/a"]) false false sample_world)).
  simpl. discriminate.
Defined.

(** ** s3_delete *)

(** One iteration: the request is always sent and the iteration always ends
    normally; a failure only changes what is printed. *)
Lemma s3_delete_body_run b num_files idx bkey w :
  let w1 := add_call (Delete bkey) (add_line (AttemptingDelete bkey (name b)) w) in
  s3_delete_body b num_files idx bkey w =
  match faults b (Delete bkey) with
  | Some f => (add_line (UnableToDelete bkey (exn_of_fault f)) w1, Normal tt)
  | None =>
      match num_files with
      | O => (add_line (UnableToDelete bkey ZeroDivisionError) (set_objects (delete bkey) w1),
              Normal tt)
      | S _ =>
          (add_line (DoneDeleting (S idx) num_files
                       (100 * (inject_Z (Z.of_nat (S idx)) / inject_Z (Z.of_nat num_files))))
             (set_objects (delete bkey) w1), Normal tt)
      end
  end.
Proof.
  unfold s3_delete_body, try_except, bind. cbn [print modify].
  rewrite Object_delete_run.
  destruct (faults b (Delete bkey)); [reflexivity|].
  now destruct num_files.
Qed.

Lemma delete_all_cons b x keys m :
  delete_all b (x :: keys) m =
  delete_all b keys (match faults b (Delete x) with Some _ => m | None => delete x m end).
Proof. reflexivity. Qed.

Lemma delete_all_absent b keys : forall m key,
  m !! key = None -> delete_all b keys m !! key = None.
Proof.
  induction keys as [|x keys IH]; intros m key Hm; [exact Hm|].
  rewrite delete_all_cons. apply IH.
  destruct (faults b (Delete x)); [exact Hm|].
  destruct (decide (x = key)) as [->|Hne];
    [apply lookup_delete_eq | now rewrite lookup_delete_ne].
Qed.

Lemma delete_all_deleted b keys : forall m key,
  key ∈ keys -> faults b (Delete key) = None -> delete_all b keys m !! key = None.
Proof.
  induction keys as [|x keys IH]; intros m key Hin Hf; [now apply elem_of_nil in Hin|].
  rewrite delete_all_cons. apply elem_of_cons in Hin as [->|Hin].
  - rewrite Hf. apply delete_all_absent, lookup_delete_eq.
  - now apply IH.
Qed.

Lemma delete_all_kept b keys : forall m key,
  (key ∈ keys -> faults b (Delete key) <> None) -> delete_all b keys m !! key = m !! key.
Proof.
  induction keys as [|x keys IH]; intros m key Hkeep; [reflexivity|].
  rewrite delete_all_cons, IH.
  - destruct (faults b (Delete x)) eqn:Hf; [reflexivity|].
    apply lookup_delete_ne. intros ->. apply Hkeep; [left|exact Hf].
  - intros Hin. apply Hkeep. now right.
Qed.

Lemma s3_delete_loop b num_files keys : forall idx w,
  let r := for_enumerate idx keys (s3_delete_body b num_files) w in
  r.2 = Normal tt
  /\ calls r.1 = calls w ++ map Delete keys
  /\ objects r.1 = delete_all b keys (objects w)
  /\ files r.1 = files w
  /\ exists ls, stdout r.1 = stdout w ++ ls
       /\ forall key f, key ∈ keys -> faults b (Delete key) = Some f ->
                        UnableToDelete key (exn_of_fault f) ∈ ls.
Proof.
  induction keys as [|x keys IH]; intros idx w.
  - cbn. rewrite app_nil_r. repeat split. exists []. rewrite app_nil_r.
    split; [reflexivity|]. intros key f Hin. now apply elem_of_nil in Hin.
  - cbn [for_enumerate]. pose proof (s3_delete_body_run b num_files idx x w) as Hbody.
    cbv zeta in Hbody.
    destruct (s3_delete_body b num_files idx x w) as [w' r'].
    assert (Hw' : r' = Normal tt /\ calls w' = calls w ++ [Delete x]
                  /\ objects w' = match faults b (Delete x) with
                                  | Some _ => objects w
                                  | None => delete x (objects w)
                                  end
                  /\ files w' = files w
                  /\ exists ls, stdout w' = stdout w ++ ls
                       /\ forall f, faults b (Delete x) = Some f ->
                                    UnableToDelete x (exn_of_fault f) ∈ ls).
    { destruct (faults b (Delete x)) as [f|].
      - injection Hbody as -> ->. repeat split.
        eexists. split; [cbn; rewrite <- app_assoc; reflexivity|].
        intros f' [= <-]. cbn. apply elem_of_cons. right. now left.
      - destruct num_files; injection Hbody as -> ->; repeat split;
          (eexists; split; [cbn; rewrite <- app_assoc; reflexivity | discriminate]). }
    destruct Hw' as (-> & Hc & Ho & Hfs & ls1 & Hls1 & Hlog1).
    destruct (IH (S idx) w') as (Hr & Hc2 & Ho2 & Hfs2 & ls2 & Hls2 & Hlog2).
    cbv zeta in *. repeat split.
    + exact Hr.
    + rewrite Hc2, Hc, <- app_assoc. reflexivity.
    + rewrite Ho2, Ho. now rewrite delete_all_cons.
    + congruence.
    + exists (ls1 ++ ls2). split; [rewrite Hls2, Hls1, <- app_assoc; reflexivity|].
      intros key f Hin Hf. apply elem_of_app. apply elem_of_cons in Hin as [->|Hin].
      * left. now apply Hlog1.
      * right. now apply (Hlog2 key f).
Qed.

(** C7: [s3_delete] sends one delete request per key, in the order of the
    list, whatever fails on the way, and returns normally.  Each request
    that fails is reported with its exception; each key whose request does
    not fail is gone from the bucket afterwards, and the keys of failed
    requests are left as they were. *)
Theorem s3_delete_attempts_every_key b (bucket_keys : list string) w :
  (s3_delete b bucket_keys w).2 = Normal tt
  /\ issued (s3_delete b bucket_keys) w = map Delete bucket_keys
  /\ (forall key f, key ∈ bucket_keys -> faults b (Delete key) = Some f ->
        UnableToDelete key (exn_of_fault f) ∈ printed (s3_delete b bucket_keys) w)
  /\ (forall key, key ∈ bucket_keys -> faults b (Delete key) = None ->
        objects (s3_delete b bucket_keys w).1 !! key = None)
  /\ (forall key f, faults b (Delete key) = Some f ->
        objects (s3_delete b bucket_keys w).1 !! key = objects w !! key).
Proof.
  unfold s3_delete, issued, printed.
  destruct (s3_delete_loop b (length bucket_keys) bucket_keys 0 w)
    as (Hr & Hc & Ho & _ & ls & Hls & Hlog).
  cbv zeta in *. rewrite Hc, Hls, Ho, !drop_app_length. repeat split.
  - exact Hr.
  - exact Hlog.
  - intros key Hin Hf. now apply delete_all_deleted.
  - intros key f Hf. apply delete_all_kept. intros _. congruence.
Qed.

Lemma s3_delete_attempts_every_key_witness :
  UnableToDelete "k2" (ClientError "AccessDenied")
    ∈ printed (s3_delete (failing (Delete "k2") (ServiceError "AccessDenied") sample_bucket)
                 five_keys) five_keys_world
  /\ objects (s3_delete (failing (Delete "k2") (ServiceError "AccessDenied") sample_bucket)
                five_keys five_keys_world).1 !! "k3" = None.
Proof.
  pose proof (s3_delete_attempts_every_key
                (failing (Delete "k2") (ServiceError "AccessDenied") sample_bucket)
                five_keys five_keys_world) as (_ & _ & Hlog & Hgone & _).
  split.
  - apply (Hlog "k2" (ServiceError "AccessDenied")); [compute_done | reflexivity].
  - apply (Hgone "k3"); [compute_done | reflexivity].
Defined.

(** ** ProgressPercentage *)

(** The total of a tracker is the size its argument shows. *)
Lemma ProgressPercentage_init_size filename w :
  ProgressPercentage.__init__ filename w =
  match filename with
  | WithContentLength n | WithSize n => (w, Normal (ProgressPercentage.Make filename n 0))
  | LocalPath path =>
      match files w !! path with
      | Some (File content) =>
          (w, Normal (ProgressPercentage.Make filename (Z.of_nat (String.length content)) 0))
      | Some Dir => (w, Normal (ProgressPercentage.Make filename 4096 0))
      | None => (w, Raised (OSError "FileNotFoundError"))
      end
  end.
Proof.
  destruct filename as [n|n|path]; try reflexivity.
  unfold ProgressPercentage.__init__, os_path_getsize, bind, gets.
  now destruct (files w !! path) as [[]|].
Qed.

Lemma ProgressPercentage_call_zero (self : ProgressPercentage.t) bytes_amount w :
  ProgressPercentage._size self = 0%Z ->
  ProgressPercentage.__call__ self bytes_amount w =
  (add_line (Progress (ProgressPercentage._seen_so_far self + bytes_amount) 0 0) w,
   Normal (ProgressPercentage.Make (ProgressPercentage._filename self) 0
             (ProgressPercentage._seen_so_far self + bytes_amount))).
Proof.
  intros Hsize. unfold ProgressPercentage.__call__, bind. rewrite Hsize. reflexivity.
Qed.

(** C8: a tracker whose total size is 0 answers every call normally (no
    [ZeroDivisionError], whatever the byte counts) and the percentage it
    writes is exactly 0, call after call. *)
Theorem ProgressPercentage_zero_total (self : ProgressPercentage.t) (chunks : list Z) w :
  ProgressPercentage._size self = 0%Z ->
  exists self',
    ProgressPercentage.deliver self chunks w =
    (World (objects w) (files w) (calls w)
           (stdout w ++ map (fun seen => Progress seen 0 0)
                            (running_totals (ProgressPercentage._seen_so_far self) chunks)),
     Normal self')
    /\ ProgressPercentage._size self' = 0%Z.
Proof.
  revert self w. induction chunks as [|bytes_amount rest IH]; intros self w Hsize.
  - exists self. cbn. rewrite app_nil_r. now destruct w.
  - cbn [ProgressPercentage.deliver running_totals map].
    rewrite (bind_Normal _ _ w _ _ (ProgressPercentage_call_zero self bytes_amount w Hsize)).
    destruct (IH (ProgressPercentage.Make (ProgressPercentage._filename self) 0
                    (ProgressPercentage._seen_so_far self + bytes_amount))
                 (add_line (Progress (ProgressPercentage._seen_so_far self + bytes_amount) 0 0) w)
                 eq_refl) as (self' & Hrun & Hsize').
    exists self'. split; [|exact Hsize'].
    rewrite Hrun. cbn [add_line objects files calls stdout ProgressPercentage._seen_so_far].
    now rewrite <- app_assoc.
Qed.

Lemma ProgressPercentage_zero_total_witness :
  exists self',
    ProgressPercentage.deliver (ProgressPercentage.Make (WithContentLength 0) 0 0)
      [5; 7]%Z sample_world =
    (World (objects sample_world) (files sample_world) (calls sample_world)
           (stdout sample_world ++ map (fun seen => Progress seen 0 0)
                                       (running_totals 0 [5; 7]%Z)),
     Normal self')
    /\ ProgressPercentage._size self' = 0%Z.
Proof.
  apply (ProgressPercentage_zero_total (ProgressPercentage.Make (WithContentLength 0) 0 0)
           [5; 7]%Z sample_world).
  reflexivity.
Defined.

(** ** The local filesystem *)




Lemma os_path_exists_present p n w :
  p <> EmptyString -> files w !! p = Some n -> os_path_exists p w = (w, Normal true).
Proof.
  intros Hp Hn. unfold os_path_exists, gets. rewrite decide_False by exact Hp.
  rewrite Hn. reflexivity.
Qed.

(** ** s3_download *)





(** The overwrite path of [s3_download] (lines 299-306): a transfer that
    fails is caught, reported with its exception, and the iteration ends
    normally with its status line. *)
Lemma s3_download_body_overwrite_failure
    md5 b local_files num_files idx bkey bobj local_path content f w :
  lookup b w bkey = inr bobj ->
  local_files !! idx = Some local_path ->
  local_path <> EmptyString ->
  files w !! local_path = Some (File content) ->
  (os_path_exists (PyStr.dirname local_path) w).2 = Normal true ->
  md5 content <> PyStr.strip dquote (e_tag bobj) ->
  faults b (DownloadFile bkey local_path) = Some f ->
  num_files <> 0%nat ->
  exists per,
    s3_download_body md5 b local_files num_files idx bkey w =
    (add_line (FinishedFile (S idx) num_files per)
       (add_line (CouldNotDownload bkey (exn_of_fault f))
          (add_call (DownloadFile bkey local_path)
             (add_line (Overwriting local_path) (add_call (Get bkey) w)))),
     Normal tt).
Proof.
  intros Hget Hidx Hne Hfile Hparent Hmd5 Hfault Hnum.
  destruct num_files as [|n]; [now contradict Hnum|]. eexists.
  unfold s3_download_body, bind, try_except.
  rewrite Object_get_run, Hget. unfold py_index. rewrite Hidx. cbn [ret].
  unfold os_path_exists at 1. unfold gets at 1. cbn [files add_call].
  unfold os_path_exists, gets in Hparent. cbn [snd] in Hparent.
  injection Hparent as ->. cbn [negb ret].
  rewrite (os_path_exists_present local_path (File content) _ Hne) by exact Hfile.
  unfold os_path_isdir, open_read, gets, bind. cbn [files add_call]. rewrite Hfile.
  cbn [ret files add_call]. rewrite Hfile. cbn [ret].
  apply String.eqb_neq in Hmd5. rewrite Hmd5.
  cbn [print modify ProgressPercentage.__init__ ret].
  unfold ProgressPercentage.__init__, bind. cbn [ret].
  unfold Bucket_download_file, bind. rewrite request_run, Hfault.
  reflexivity.
Qed.

(** C4, where the code departs from it: the first of two pairs is a fresh
    download (its local file is not there yet) whose transfer fails.  The
    exception leaves [s3_download]: nothing is reported for the failure and
    the second pair is never looked at. *)
Theorem s3_download_fresh_failure_aborts md5 :
  s3_download md5
    (failing (DownloadFile "old/a" "/tmp/out/a") (ClientFailure "ReadTimeoutError")
       sample_bucket)
    (["old/a"; "old/b"], ["/tmp/out/a"; "/tmp/out/b"]) two_objects_world
  = (World (objects two_objects_world)
           (<["/tmp/out" := Dir]> (files two_objects_world))
           [Get "old/a"; DownloadFile "old/a" "/tmp/out/a"]
           [Downloading "old/a" "/tmp/out/a"],
     Raised (BotoError "ReadTimeoutError")).
Proof. reflexivity. Qed.

(** ** Lists of different lengths *)

(** [s3_upload] refuses them before any request. *)
Lemma s3_upload_length_mismatch md5 b (local_s3_tuple : list string * list string)
    make_public encrypt w :
  length local_s3_tuple.1 <> length local_s3_tuple.2 ->
  s3_upload md5 b local_s3_tuple make_public encrypt w =
  (w, Raised (RuntimeError "local_list and s3_list must be the same length!")).
Proof.
  intros Hne. unfold s3_upload, bind.
  destruct (Nat.eqb_spec (length local_s3_tuple.1) (length local_s3_tuple.2));
    [contradiction | reflexivity].
Qed.

(** So does [s3_rename]. *)
Lemma s3_rename_length_mismatch b (src_dst_tuple : list string * list string)
    keep_old make_public w :
  length src_dst_tuple.1 <> length src_dst_tuple.2 ->
  s3_rename b src_dst_tuple keep_old make_public w =
  (w, Raised (ValueError "src_list and dst_list are different lengths!")).
Proof.
  intros Hne. unfold s3_rename, bind.
  destruct (Nat.eqb_spec (length src_dst_tuple.1) (length src_dst_tuple.2));
    [contradiction | reflexivity].
Qed.

(** C1, where the code departs from it: [s3_download] has no check of the
    lengths.  With one key and two local paths it downloads the key and
    returns normally; with two keys and one local path it downloads the
    first key and only then stops, on the [IndexError] of [local_files[idx]]. *)
Theorem s3_download_ignores_length_mismatch md5 :
  ((s3_download md5 sample_bucket (["old/a"], ["/tmp/out/a"; "/tmp/out/b"]) sample_world).2
   = Normal tt
   /\ calls (s3_download md5 sample_bucket (["old/a"], ["/tmp/out/a"; "/tmp/out/b"])
               sample_world).1
      = [Get "old/a"; DownloadFile "old/a" "/tmp/out/a"]
   /\ files (s3_download md5 sample_bucket (["old/a"], ["/tmp/out/a"; "/tmp/out/b"])
               sample_world).1 !! "/tmp/out/a" = Some (File "AAA"))
  /\
  ((s3_download md5 sample_bucket (["old/a"; "old/a"], ["/tmp/out/a"]) sample_world).2
   = Raised IndexError
   /\ calls (s3_download md5 sample_bucket (["old/a"; "old/a"], ["/tmp/out/a"])
               sample_world).1
      = [Get "old/a"; DownloadFile "old/a" "/tmp/out/a"; Get "old/a"]
   /\ files (s3_download md5 sample_bucket (["old/a"; "old/a"], ["/tmp/out/a"])
               sample_world).1 !! "/tmp/out/a" = Some (File "AAA")).
Proof. repeat split. Qed.

(** ** s3_upload *)





(** An iteration of [s3_upload] is: the destination, the two paths, the
    announcement, the decision, the status line. *)
Lemma s3_upload_body_unfold md5 b s3_list extra_args num_files idx src_file dst_file src dst w :
  s3_list !! idx = Some dst_file ->
  strip_s3_prefix "s3://" src_file dst_file w = (w, Normal (src, dst)) ->
  s3_upload_body md5 b s3_list "s3://" extra_args num_files idx src_file w =
  bind (upload_decision md5 b src dst extra_args)
       (fun _ => bind (percent_done (S idx) num_files)
                      (fun per => print (FinishedFile (S idx) num_files per)))
       (add_line (UploadingAs src (name b) dst) w).
Proof.
  intros Hidx Hstrip. unfold s3_upload_body.
  unfold bind at 1. unfold py_index. rewrite Hidx. cbn [ret].
  unfold bind at 1. rewrite Hstrip. cbn [fst snd].
  unfold bind at 1. cbn [print modify]. reflexivity.
Qed.














(** *** The prefix of a destination *)

Lemma prefix_append p r : String.prefix p (p +:+ r) = true.
Proof.
  induction p as [|a p IH]; [now destruct r|].
  change (String a p +:+ r) with (String a (p +:+ r)). cbn [String.prefix].
  destruct (ascii_dec a a); [exact IH | contradiction].
Qed.

Lemma replace_from_skip old new p r :
  PyStr.replace_from (String.length p) old new (p +:+ r) = PyStr.replace_from 0 old new r.
Proof.
  induction p as [|a p IH]; [reflexivity|].
  change (String a p +:+ r) with (String a (p +:+ r)). exact IH.
Qed.

Lemma replace_from_absent old new r :
  occurs old r = false -> PyStr.replace_from 0 old new r = r.
Proof.
  induction r as [|a r IH]; [reflexivity|]. cbn [occurs PyStr.replace_from].
  intros H. apply orb_false_iff in H as [-> Hr]. now rewrite IH.
Qed.

(** Replacing a prefix that occurs nowhere else removes it. *)
Lemma replace_prefix_once old r :
  old <> EmptyString ->
  occurs old r = false ->
  PyStr.replace (old +:+ r) old EmptyString = r.
Proof.
  intros Hold Hr. destruct old as [|a old]; [contradiction|]. unfold PyStr.replace.
  change (String a old +:+ r) with (String a (old +:+ r)) at 1.
  cbn [PyStr.replace_from]. change (String a (old +:+ r)) with (String a old +:+ r).
  rewrite prefix_append. cbn [String.length Nat.pred].
  change (EmptyString +:+ ?x) with x.
  now rewrite replace_from_skip, replace_from_absent.
Qed.

(** The first field of a path is all there is before its first slash. *)
Lemma split_first_field bkt rest :
  free_of "/" bkt = true ->
  exists fields, PyStr.split "/" (bkt +:+ String "/" rest) = bkt :: fields.
Proof.
  induction bkt as [|a bkt IH]; intros Hfree.
  - exists (PyStr.split "/" rest). reflexivity.
  - cbn [free_of] in Hfree. apply andb_true_iff in Hfree as [Ha Hfree].
    destruct (IH Hfree) as [fields Hfields].
    change (String a bkt +:+ String "/" rest) with (String a (bkt +:+ String "/" rest)).
    cbn [PyStr.split]. apply negb_true_iff in Ha. rewrite Ha, Hfields. now exists fields.
Qed.

(** When the destination alone is written [s3://bucket/key], the pair the
    iteration works with is the source and [key]: the bucket name has no
    slash, the key does not start with one, and the prefix [s3://bucket] is
    not repeated further on. *)
Lemma strip_s3_prefix_destination_key src_file bkt key w :
  PyStr.startswith src_file "s3://" = false ->
  free_of "/" bkt = true ->
  PyStr.startswith key "/" = false ->
  occurs ("s3://" +:+ bkt) (String "/" key) = false ->
  strip_s3_prefix "s3://" src_file ("s3://" +:+ bkt +:+ String "/" key) w
  = (w, Normal (src_file, key)).
Proof.
  intros Hsrc Hfree Hkey Hrest. unfold strip_s3_prefix. rewrite Hsrc.
  replace (PyStr.startswith ("s3://" +:+ bkt +:+ String "/" key) "s3://") with true
    by (symmetry; apply prefix_append).
  destruct (split_first_field bkt key Hfree) as [fields Hfields].
  assert (Hsplit : PyStr.split "/" ("s3://" +:+ bkt +:+ String "/" key)
                   = "s3:" :: EmptyString :: bkt :: fields).
  { change ("s3://" +:+ bkt +:+ String "/" key)
      with (String "s" (String "3" (String ":" (String "/" (String "/"
              (bkt +:+ String "/" key)))))).
    cbn [PyStr.split Ascii.eqb Bool.eqb]. now rewrite Hfields. }
  unfold bind, py_index. rewrite Hsplit.
  change (("s3:" :: EmptyString :: bkt :: fields) !! 2%nat) with (Some bkt). cbn [ret].
  rewrite <- (append_assoc "s3://" bkt (String "/" key)).
  rewrite replace_prefix_once by (exact Hrest || discriminate).
  cbn [PyStr.lstrip Ascii.eqb Bool.eqb].
  destruct key as [|a key]; [reflexivity|].
  unfold PyStr.startswith in Hkey. cbn [String.prefix] in Hkey.
  cbn [PyStr.lstrip]. destruct (Ascii.eqb_spec a "/") as [->|Hne]; [|reflexivity].
  destruct (ascii_dec "/" "/"); [|contradiction]. now destruct key.
Qed.

(** The destination alone carries the prefix: it is stripped. *)
Lemma strip_s3_prefix_destination w :
  strip_s3_prefix "s3://" "/tmp/a.txt" "s3://fcp-indi/data/a.txt" w
  = (w, Normal ("/tmp/a.txt", "data/a.txt")).
Proof. reflexivity. Qed.

(** C6, where the code departs from it: when the source and the destination
    both carry the [s3://bucket/] prefix, the [elif] leaves the destination
    as it is, and the object is stored under the fully-qualified path. *)
Theorem s3_upload_keeps_destination_prefix md5 :
  (forall w,
      strip_s3_prefix "s3://" "s3://fcp-indi/tmp/a.txt" "s3://fcp-indi/data/a.txt" w
      = (w, Normal ("tmp/a.txt", "s3://fcp-indi/data/a.txt")))
  /\ calls (s3_upload md5 sample_bucket
              (["s3://fcp-indi/tmp/a.txt"], ["s3://fcp-indi/data/a.txt"]) false false
              relative_file_world).1
     = [Get "s3://fcp-indi/data/a.txt";
        UploadFile "tmp/a.txt" "s3://fcp-indi/data/a.txt" ∅]
  /\ objects (s3_upload md5 sample_bucket
                (["s3://fcp-indi/tmp/a.txt"], ["s3://fcp-indi/data/a.txt"]) false false
                relative_file_world).1 !! "s3://fcp-indi/data/a.txt"
     = Some (sample_object "hello")
  /\ objects (s3_upload md5 sample_bucket
                (["s3://fcp-indi/tmp/a.txt"], ["s3://fcp-indi/data/a.txt"]) false false
                relative_file_world).1 !! "data/a.txt"
     = None.
Proof. repeat split. Qed.

(** ** What the functions leave alone

    A relation between worlds that is reflexive and transitive, and that
    every primitive step keeps, is kept by a whole function: the walk
    through the code is the same for every such relation. *)

Section Keeps.
Context (R : world -> world -> Prop) `{!PreOrder R}.

Lemma keeps_ret {A : Type} (a : A) : keeps R (ret a).
Proof. intros w. reflexivity. Qed.
Lemma keeps_raise {A : Type} e : keeps R (@raise A e).
Proof. intros w. reflexivity. Qed.
Lemma keeps_continue {A : Type} : keeps R (@continue A).
Proof. intros w. reflexivity. Qed.
Lemma keeps_gets {A : Type} (f : world -> A) : keeps R (gets f).
Proof. intros w. reflexivity. Qed.
Lemma keeps_modify f : (forall w, R w (f w)) -> keeps R (modify f).
Proof. intros H w. apply H. Qed.
Lemma keeps_unchanged {A : Type} (m : M A) : unchanged m -> keeps R m.
Proof. intros H w. rewrite H. reflexivity. Qed.
Lemma keeps_bind {A B : Type} (m : M A) (k : A -> M B) :
  keeps R m -> (forall a, keeps R (k a)) -> keeps R (bind m k).
Proof.
  intros Hm Hk w. unfold bind. specialize (Hm w).
  destruct (m w) as [w' [a|e|]]; cbn [fst] in *; [|exact Hm..].
  etrans; [exact Hm | apply Hk].
Qed.
Lemma keeps_try_except {A : Type} (m : M A) catches handler :
  keeps R m -> (forall e, keeps R (handler e)) -> keeps R (try_except m catches handler).
Proof.
  intros Hm Hh w. unfold try_except. specialize (Hm w).
  destruct (m w) as [w' [a|e|]]; cbn [fst] in *; [exact Hm | | exact Hm].
  destruct (catches e); [|exact Hm]. etrans; [exact Hm | apply Hh].
Qed.
Lemma keeps_for_enumerate {A : Type} (body : nat -> A -> M unit) l :
  (forall idx x, keeps R (body idx x)) -> forall idx, keeps R (for_enumerate idx l body).
Proof.
  intros Hbody. induction l as [|x l IH]; intros idx w; [reflexivity|].
  cbn [for_enumerate]. specialize (Hbody idx x w).
  destruct (body idx x w) as [w' [[]|e|]]; cbn [fst] in *;
    [etrans; [exact Hbody | apply IH] | exact Hbody | etrans; [exact Hbody | apply IH]].
Qed.
End Keeps.

Lemma unchanged_py_index {A : Type} (l : list A) idx : unchanged (py_index l idx).
Proof. intros w. unfold py_index. now destruct (l !! idx). Qed.
Lemma unchanged_percent_done done total : unchanged (percent_done done total).
Proof. intros w. now destruct total. Qed.
Lemma unchanged_py_truediv a b : unchanged (py_truediv a b).
Proof. intros w. unfold py_truediv. now destruct (Z.eqb b 0). Qed.
Create HintDb unchanged discriminated.
#[local] Hint Resolve unchanged_py_index unchanged_percent_done unchanged_py_truediv : unchanged.

Ltac keeps_walk side :=
  repeat first
    [ apply keeps_ret; solve [apply _]
    | apply keeps_raise; solve [apply _]
    | apply keeps_continue; solve [apply _]
    | apply keeps_gets; solve [apply _]
    | apply keeps_unchanged; [solve [apply _] | solve [auto with unchanged]]
    | apply keeps_modify; intros ?; solve [side]
    | apply keeps_for_enumerate; [solve [apply _] | intros ? ?]
    | match goal with
      | |- keeps _ (if ?c then _ else _) => destruct c
      | |- keeps _ (match ?x with _ => _ end) => destruct x
      end
    | apply keeps_try_except; [solve [apply _] | | intros ?]
    | apply keeps_bind; [solve [apply _] | | intros ?] ].

#[local] Instance same_objects_preorder : PreOrder same_objects.
Proof. split; [intros w; reflexivity | intros w1 w2 w3 H1 H2; unfold same_objects in *; congruence]. Qed.
#[local] Instance same_files_preorder : PreOrder same_files.
Proof. split; [intros w; reflexivity | intros w1 w2 w3 H1 H2; unfold same_files in *; congruence]. Qed.
#[local] Instance keys_kept_preorder : PreOrder keys_kept.
Proof. split; [intros w k; auto | intros w1 w2 w3 H1 H2 k Hk; auto]. Qed.
#[local] Instance calls_within_preorder P : PreOrder (calls_within P).
Proof.
  split.
  - intros w. exists []. split; [now rewrite app_nil_r | constructor].
  - intros w1 w2 w3 (c1 & H1 & F1) (c2 & H2 & F2). exists (c1 ++ c2).
    split; [rewrite H2, H1, app_assoc; reflexivity | now apply Forall_app].
Qed.

Lemma keeps_os_makedirs R `{!PreOrder R} name :
  (forall w fs, R w (set_files (fun _ => fs) w)) -> keeps R (os_makedirs name).
Proof. intros H w. unfold os_makedirs. destruct (makedirs_in _ _ _); [reflexivity | apply H]. Qed.

Ltac calls_side :=
  match goal with
  | |- calls_within _ ?w (add_call ?c ?w) =>
      exists [c]; split;
        [reflexivity
        | repeat constructor; cbn; try apply bool_decide_eq_true_2; reflexivity]
  | |- calls_within _ ?w _ => exists []; split; [cbn; now rewrite app_nil_r | constructor]
  end.

Lemma issued_calls_within {A : Type} P (m : M A) w :
  calls_within P w (m w).1 -> Forall P (issued m w).
Proof. intros (cs & Hc & HP). unfold issued. now rewrite Hc, drop_app_length. Qed.

Ltac keys_side :=
  intros ? ?; cbn [objects set_objects set_files add_call add_line];
  rewrite ?lookup_insert; try case_decide; eauto.

(** X1: s3_download never changes the objects of the bucket, and the only
    requests it sends are get and download_file. *)
Theorem s3_download_leaves_bucket md5 b (s3_local_tuple : list string * list string) w :
  objects (s3_download md5 b s3_local_tuple w).1 = objects w
  /\ Forall (fun c => download_request c = true) (issued (s3_download md5 b s3_local_tuple) w).
Proof.
  split.
  - revert w. change (keeps same_objects (s3_download md5 b s3_local_tuple)).
    unfold s3_download, s3_download_body. keeps_walk ltac:(reflexivity).
    apply keeps_os_makedirs; [apply _ | reflexivity].
  - apply issued_calls_within. revert w.
    change (keeps (calls_within (fun c => download_request c = true))
              (s3_download md5 b s3_local_tuple)).
    unfold s3_download, s3_download_body. keeps_walk ltac:(idtac; calls_side).
    apply keeps_os_makedirs; [apply _ | intros; calls_side].
Qed.

(** X2: s3_upload never changes the local files, never removes a key from the
    bucket, and sends only get requests and upload_file requests whose
    ExtraArgs are exactly the ones built from make_public and encrypt. *)
Theorem s3_upload_frame md5 b (local_s3_tuple : list string * list string)
    make_public encrypt w :
  files (s3_upload md5 b local_s3_tuple make_public encrypt w).1 = files w
  /\ (forall key, is_Some (objects w !! key) ->
        is_Some (objects (s3_upload md5 b local_s3_tuple make_public encrypt w).1 !! key))
  /\ Forall (fun c => upload_request (extra_args_of make_public encrypt) c = true)
       (issued (s3_upload md5 b local_s3_tuple make_public encrypt) w).
Proof.
  split; [|split].
  - revert w. change (keeps same_files (s3_upload md5 b local_s3_tuple make_public encrypt)).
    unfold s3_upload, s3_upload_body, strip_s3_prefix, upload_with_progress. cbv zeta.
    keeps_walk ltac:(reflexivity).
  - revert w. change (keeps keys_kept (s3_upload md5 b local_s3_tuple make_public encrypt)).
    unfold s3_upload, s3_upload_body, strip_s3_prefix, upload_with_progress. cbv zeta.
    keeps_walk ltac:(idtac; keys_side).
  - apply issued_calls_within. revert w.
    change (keeps (calls_within
                     (fun c => upload_request (extra_args_of make_public encrypt) c = true))
              (s3_upload md5 b local_s3_tuple make_public encrypt)).
    unfold s3_upload, s3_upload_body, strip_s3_prefix, upload_with_progress. cbv zeta.
    keeps_walk ltac:(idtac; calls_side).
Qed.

(** X3: s3_rename never changes the local files, and it sends only get and
    copy_from requests, and delete requests only when keep_old is false.
    With keep_old true every key that is in the bucket before the call is
    still in it afterwards. *)
Theorem s3_rename_frame b (src_dst_tuple : list string * list string) keep_old make_public w :
  files (s3_rename b src_dst_tuple keep_old make_public w).1 = files w
  /\ Forall (fun c => rename_request keep_old c = true)
       (issued (s3_rename b src_dst_tuple keep_old make_public) w)
  /\ (keep_old = true ->
      forall key, is_Some (objects w !! key) ->
        is_Some (objects (s3_rename b src_dst_tuple keep_old make_public w).1 !! key)).
Proof.
  split; [|split].
  - revert w. change (keeps same_files (s3_rename b src_dst_tuple keep_old make_public)).
    unfold s3_rename, s3_rename_body. cbv zeta. keeps_walk ltac:(reflexivity).
  - apply issued_calls_within. revert w.
    change (keeps (calls_within (fun c => rename_request keep_old c = true))
              (s3_rename b src_dst_tuple keep_old make_public)).
    unfold s3_rename, s3_rename_body. cbv zeta.
    destruct keep_old; cbn [negb]; keeps_walk ltac:(idtac; calls_side).
  - intros ->. revert w.
    change (keeps keys_kept (s3_rename b src_dst_tuple true make_public)).
    unfold s3_rename, s3_rename_body. cbv zeta. cbn [negb].
    keeps_walk ltac:(idtac; keys_side).
Qed.

(** *** s3_delete: the keys that are not listed *)

Lemma delete_all_inv b keys : forall m key obj,
  delete_all b keys m !! key = Some obj -> m !! key = Some obj.
Proof.
  induction keys as [|x keys IH]; intros m key obj H; [exact H|].
  rewrite delete_all_cons in H. apply IH in H.
  destruct (faults b (Delete x)); [exact H|].
  apply lookup_delete_Some in H. tauto.
Qed.

Lemma delete_all_idempotent b keys m :
  delete_all b keys (delete_all b keys m) = delete_all b keys m.
Proof.
  apply map_eq. intros key.
  destruct (decide (key ∈ keys)) as [Hin|Hout].
  - destruct (faults b (Delete key)) eqn:Hf.
    + apply delete_all_kept. intros _. congruence.
    + now rewrite !delete_all_deleted.
  - now apply delete_all_kept.
Qed.

(** X4: s3_delete leaves the local files alone, leaves every key that is not in
    bucket_keys as it was, and never creates or alters an object: whatever
    is in the bucket afterwards was there before, unchanged. *)
Theorem s3_delete_touches_listed_keys_only b (bucket_keys : list string) w :
  files (s3_delete b bucket_keys w).1 = files w
  /\ (forall key, key ∉ bucket_keys ->
        objects (s3_delete b bucket_keys w).1 !! key = objects w !! key)
  /\ (forall key obj, objects (s3_delete b bucket_keys w).1 !! key = Some obj ->
        objects w !! key = Some obj).
Proof.
  unfold s3_delete.
  destruct (s3_delete_loop b (length bucket_keys) bucket_keys 0 w) as (_ & _ & Ho & Hf & _).
  cbv zeta in *. rewrite Ho. repeat split.
  - exact Hf.
  - intros key Hout. now apply delete_all_kept.
  - intros key obj. apply delete_all_inv.
Qed.

(** X5: Running s3_delete a second time with the same keys changes nothing more:
    it again sends one delete request per key, returns normally, and the
    objects of the bucket are as after the first run. *)
Theorem s3_delete_twice b (bucket_keys : list string) w :
  objects (s3_delete b bucket_keys (s3_delete b bucket_keys w).1).1
  = objects (s3_delete b bucket_keys w).1
  /\ issued (s3_delete b bucket_keys) (s3_delete b bucket_keys w).1 = map Delete bucket_keys
  /\ (s3_delete b bucket_keys (s3_delete b bucket_keys w).1).2 = Normal tt.
Proof.
  unfold s3_delete, issued.
  destruct (s3_delete_loop b (length bucket_keys) bucket_keys 0 w) as (_ & _ & Ho & _).
  destruct (s3_delete_loop b (length bucket_keys) bucket_keys 0
              (for_enumerate 0 bucket_keys (s3_delete_body b (length bucket_keys)) w).1)
    as (Hr2 & Hc2 & Ho2 & _).
  cbv zeta in *. rewrite Ho2, Ho, Hc2, drop_app_length, delete_all_idempotent. now repeat split.
Qed.

(** *** s3_rename: the objects it does not move *)

#[local] Instance object_stays_preorder key obj : PreOrder (object_stays key obj).
Proof. split; [intros w H; exact H | intros w1 w2 w3 H1 H2 H; auto]. Qed.

Lemma lookup_fault_free b w key e :
  faults b (Get key) = None -> lookup b w key = inl e ->
  e = ClientError "NoSuchKey" /\ objects w !! key = None.
Proof.
  intros Hf. unfold lookup. rewrite Hf.
  destruct (objects w !! key); [discriminate | now intros [= <-]].
Qed.

Lemma s3_rename_body_no_destination b dst_list keep_old make_public num_files idx src_f o w :
  lookup b w src_f = inr o ->
  dst_list !! idx = None ->
  s3_rename_body b dst_list keep_old make_public num_files idx src_f w
  = (add_call (Get src_f) w, Raised IndexError).
Proof.
  intros Hsrc Hidx. unfold s3_rename_body, bind, try_except.
  rewrite Object_get_run, Hsrc. cbn [ret]. unfold py_index. now rewrite Hidx.
Qed.

Lemma s3_rename_body_copy_attempt
    b dst_list keep_old make_public num_files idx src_f dst_key obj code w :
  lookup b w src_f = inr obj ->
  dst_list !! idx = Some dst_key ->
  lookup b w dst_key = inl (ClientError code) ->
  s3_rename_body b dst_list keep_old make_public num_files idx src_f w =
  bind (print (CopyingSource src_f dst_key) ;;
        (if make_public
         then print MakingPublic ;;
              Object_copy_from b dst_key (name b +:+ "/" +:+ src_f) (Some "public-read")
         else Object_copy_from b dst_key (name b +:+ "/" +:+ src_f) None) ;;
        (if negb keep_old then Object_delete b src_f else ret tt))
       (fun _ => let* per := percent_done (S idx) num_files in
                 print (DoneRenaming (S idx) num_files per))
       (add_call (Get dst_key) (add_call (Get src_f) w)).
Proof.
  intros Hsrc Hidx Hdst. unfold s3_rename_body.
  unfold bind at 1. unfold try_except at 1. unfold bind at 1.
  rewrite Object_get_run, Hsrc. cbn [ret].
  unfold bind at 1. unfold py_index. rewrite Hidx. cbn [ret].
  unfold bind at 1. unfold try_except at 1. unfold bind at 1.
  rewrite Object_get_run, lookup_add_call, Hdst. cbn [is_ClientError].
  unfold bind at 5. reflexivity.
Qed.

Ltac stays_side :=
  intros ?; cbn [objects set_objects set_files add_call add_line];
  rewrite ?lookup_insert_ne, ?lookup_delete_ne by congruence; assumption.

Lemma s3_rename_body_object_stays
    b dst_list keep_old make_public num_files idx src_f key obj w :
  (forall k, faults b (Get k) = None) ->
  keep_old = true \/ key <> src_f ->
  object_stays key obj w (s3_rename_body b dst_list keep_old make_public num_files idx src_f w).1.
Proof.
  intros Hget Hkeep Hkey.
  destruct (lookup b w src_f) as [e|o] eqn:Hsrc.
  - rewrite (s3_rename_body_source_missing _ _ _ _ _ _ _ e) by exact Hsrc.
    now destruct (is_ClientError e).
  - destruct (dst_list !! idx) as [dst_key|] eqn:Hidx.
    2:{ now rewrite (s3_rename_body_no_destination _ _ _ _ _ _ _ o). }
    destruct (lookup b w dst_key) as [e|o'] eqn:Hdst.
    2:{ now rewrite (s3_rename_body_destination_exists _ _ _ _ _ _ _ dst_key o o'). }
    destruct (lookup_fault_free _ _ _ _ (Hget dst_key) Hdst) as [-> Habsent].
    assert (Hne : dst_key <> key) by congruence.
    rewrite (s3_rename_body_copy_attempt _ _ _ _ _ _ _ dst_key o "NoSuchKey") by assumption.
    revert Hkey.
    change (object_stays key obj w
              ((bind (print (CopyingSource src_f dst_key) ;;
                      (if make_public
                       then print MakingPublic ;;
                            Object_copy_from b dst_key (name b +:+ "/" +:+ src_f)
                              (Some "public-read")
                       else Object_copy_from b dst_key (name b +:+ "/" +:+ src_f) None) ;;
                      (if negb keep_old then Object_delete b src_f else ret tt))
                  (fun _ => let* per := percent_done (S idx) num_files in
                            print (DoneRenaming (S idx) num_files per)))
                 (add_call (Get dst_key) (add_call (Get src_f) w))).1).
    etrans; [|apply (keeps_bind (object_stays key obj))].
    + intros H. exact H.
    + destruct Hkeep as [->|Hsrcne]; cbn [negb];
        unfold Object_copy_from, Object_delete, request;
        keeps_walk ltac:(idtac; stays_side).
    + intros _. keeps_walk ltac:(idtac; stays_side).
Qed.

(** X6: When no lookup fails for another reason than a missing key, s3_rename
    leaves every object that is in the bucket before the call unchanged
    under its key, unless keep_old is false and the key is one of the
    sources: no copy ever overwrites an existing object, whatever else
    fails. *)
Theorem s3_rename_keeps_other_objects
    b (src_dst_tuple : list string * list string) keep_old make_public key obj w :
  (forall k, faults b (Get k) = None) ->
  objects w !! key = Some obj ->
  keep_old = true \/ key ∉ src_dst_tuple.1 ->
  objects (s3_rename b src_dst_tuple keep_old make_public w).1 !! key = Some obj.
Proof.
  intros Hget Hobj Hkeep. revert Hobj.
  change (object_stays key obj w (s3_rename b src_dst_tuple keep_old make_public w).1).
  destruct src_dst_tuple as [src_list dst_list]. cbn [fst] in Hkeep.
  unfold s3_rename. cbn [fst snd].
  apply (keeps_bind (object_stays key obj));
    [keeps_walk ltac:(idtac; stays_side) | intros _].
  apply (keeps_bind (object_stays key obj));
    [keeps_walk ltac:(idtac; stays_side) | intros _].
  assert (Hloop : forall l idx w,
             (keep_old = true \/ key ∉ l) ->
             object_stays key obj w
               (for_enumerate idx l
                  (s3_rename_body b dst_list keep_old make_public (length src_list)) w).1).
  { clear w Hkeep. induction l as [|x l IH]; intros idx w Hk; [intros H; exact H|].
    cbn [for_enumerate].
    assert (Hx : keep_old = true \/ key <> x).
    { destruct Hk as [->|Hk]; [now left|right]. intros ->. apply Hk. now left. }
    assert (Hl : keep_old = true \/ key ∉ l).
    { destruct Hk as [->|Hk]; [now left|right]. intros Hin. apply Hk. now right. }
    pose proof (s3_rename_body_object_stays b dst_list keep_old make_public
                  (length src_list) idx x key obj w Hget Hx) as Hbody.
    destruct (s3_rename_body b dst_list keep_old make_public (length src_list) idx x w)
      as [w' [[]|e|]]; cbn [fst] in *;
      [etrans; [exact Hbody | apply IH, Hl] | exact Hbody
      | etrans; [exact Hbody | apply IH, Hl]]. }
  intros w0. now apply Hloop.
Qed.

Lemma s3_rename_keeps_other_objects_witness :
  objects (s3_rename sample_bucket (["old/a"], ["new/a"]) true false sample_world).1 !! "old/a"
  = Some (sample_object "AAA").
Proof.
  apply (s3_rename_keeps_other_objects sample_bucket (["old/a"], ["new/a"]) true false
           "old/a" (sample_object "AAA") sample_world).
  - intros k. reflexivity.
  - reflexivity.
  - left. reflexivity.
Defined.

(** A store that never fails: the batch of renames runs to its end. *)
Lemma s3_rename_body_completes b dst_list keep_old make_public num_files idx src_f dst_key w :
  (forall c, faults b c = None) ->
  dst_list !! idx = Some dst_key ->
  num_files <> 0%nat ->
  forall e, (s3_rename_body b dst_list keep_old make_public num_files idx src_f w).2 <> Raised e.
Proof.
  intros Hfree Hidx Hnum e.
  destruct (lookup b w src_f) as [e1|o] eqn:Hsrc.
  - destruct (lookup_fault_free _ _ _ _ (Hfree _) Hsrc) as [-> _].
    now rewrite (s3_rename_body_source_missing _ _ _ _ _ _ _ (ClientError "NoSuchKey")).
  - destruct (lookup b w dst_key) as [e1|o'] eqn:Hdst.
    + destruct (lookup_fault_free _ _ _ _ (Hfree _) Hdst) as [-> _].
      pose proof (s3_rename_body_copies b dst_list keep_old make_public num_files idx src_f
                    dst_key o "NoSuchKey" w Hsrc Hidx Hdst (Hfree _)) as Hrun.
      cbv zeta in Hrun. rewrite Hrun. clear Hrun.
      set (w4 := set_objects _ _).
      assert (Hdel : exists w5, (if negb keep_old then Object_delete b src_f else ret tt) w4
                                = (w5, Normal tt)).
      { destruct keep_old; cbn [negb]; [now exists w4|].
        rewrite Object_delete_run, Hfree. eauto. }
      destruct Hdel as [w5 Hdel]. rewrite (bind_Normal _ _ _ _ _ Hdel).
      destruct (rename_status_run idx num_files w5) as (_ & _ & _ & Hn).
      cbv zeta in Hn. now rewrite (Hn Hnum).
    + now rewrite (s3_rename_body_destination_exists _ _ _ _ _ _ _ dst_key o o').
Qed.

(** X7: With source and destination lists of the same length and a bucket none
    of whose requests fails, s3_rename returns normally, whichever sources
    are missing and whichever destinations already exist. *)
Theorem s3_rename_completes b (src_list dst_list : list string) keep_old make_public w :
  (forall c, faults b c = None) ->
  length src_list = length dst_list ->
  (s3_rename b (src_list, dst_list) keep_old make_public w).2 = Normal tt.
Proof.
  intros Hfree Hlen. unfold s3_rename, bind. cbn [fst snd].
  rewrite Hlen, Nat.eqb_refl. cbn [negb ret].
  assert (Hloop : forall l idx w,
             (forall i x, l !! i = Some x -> is_Some (dst_list !! (idx + i)%nat)) ->
             (l <> [] -> length dst_list <> 0%nat) ->
             (for_enumerate idx l
                (s3_rename_body b dst_list keep_old make_public (length dst_list)) w).2
             = Normal tt).
  { clear w. induction l as [|x l IH]; intros idx w Hdst Hnum; [reflexivity|].
    cbn [for_enumerate].
    destruct (Hdst 0%nat x eq_refl) as [dst_key Hidx]. rewrite Nat.add_0_r in Hidx.
    pose proof (s3_rename_body_completes b dst_list keep_old make_public (length dst_list)
                  idx x dst_key w Hfree Hidx (Hnum ltac:(discriminate))) as Hbody.
    assert (Hrest : forall w', (for_enumerate (S idx) l
                (s3_rename_body b dst_list keep_old make_public (length dst_list)) w').2
             = Normal tt).
    { intros w'. apply IH.
      - intros i y Hy. replace (S idx + i)%nat with (idx + S i)%nat by lia.
        now apply (Hdst (S i) y).
      - intros _. apply Hnum. discriminate. }
    destruct (s3_rename_body b dst_list keep_old make_public (length dst_list) idx x w)
      as [w' [[]|e|]]; cbn [snd] in *; [apply Hrest | now contradiction (Hbody e) | apply Hrest]. }
  apply Hloop.
  - intros i x Hx. cbn. apply lookup_lt_is_Some. rewrite <- Hlen. now apply lookup_lt_Some in Hx.
  - intros Hne Hz. rewrite <- Hlen in Hz. now destruct src_list.
Qed.

Lemma s3_rename_completes_witness :
  (s3_rename sample_bucket (["old/a"; "old/b"], ["new/a"; "new/b"]) false true
     sample_world).2 = Normal tt.
Proof.
  apply (s3_rename_completes sample_bucket ["old/a"; "old/b"] ["new/a"; "new/b"] false true
           sample_world).
  - intros c. reflexivity.
  - reflexivity.
Defined.

(** *** Keys that are not in the bucket *)

Lemma s3_download_body_not_found md5 b local_files num_files idx bkey e w :
  lookup b w bkey = inl e ->
  s3_download_body md5 b local_files num_files idx bkey w =
  if is_ClientError e
  then (add_line (NotInBucket bkey e) (add_call (Get bkey) w), Continued)
  else (add_call (Get bkey) w, Raised e).
Proof.
  intros Hget. unfold s3_download_body, bind, try_except.
  rewrite Object_get_run, Hget. now destruct e.
Qed.

(** X8: If none of the requested keys is in the bucket (lookups not failing
    otherwise), s3_download sends one get per key, prints one not-in-bucket
    line per key in order, touches neither the files nor the bucket and
    returns normally, whatever the list of local paths is. *)
Theorem s3_download_missing_keys md5 b (s3_list local_files : list string) w :
  (forall key, key ∈ s3_list -> faults b (Get key) = None /\ objects w !! key = None) ->
  s3_download md5 b (s3_list, local_files) w =
  (World (objects w) (files w)
         (calls w ++ map Get s3_list)
         (stdout w ++ map (fun key => NotInBucket key (ClientError "NoSuchKey")) s3_list),
   Normal tt).
Proof.
  unfold s3_download. cbn [fst snd]. generalize (length s3_list) as num_files. intros num_files.
  generalize 0%nat as idx. revert w.
  induction s3_list as [|key l IH]; intros w idx Habsent.
  - cbn. rewrite !app_nil_r. now destruct w.
  - cbn [for_enumerate map].
    destruct (Habsent key ltac:(now left)) as [Hf Ho].
    rewrite (s3_download_body_not_found md5 b local_files num_files idx key
               (ClientError "NoSuchKey") w (lookup_absent _ _ _ Hf Ho)).
    cbn [is_ClientError]. rewrite IH.
    + cbn [objects files calls stdout add_line add_call]. now rewrite <- !app_assoc.
    + intros k Hk. cbn [objects add_line add_call]. apply Habsent. now right.
Qed.

Lemma s3_download_missing_keys_witness :
  s3_download sample_hexdigest sample_bucket (["gone/a"; "gone/b"], ["/tmp/a"]) sample_world =
  (World (objects sample_world) (files sample_world)
         (calls sample_world ++ map Get ["gone/a"; "gone/b"])
         (stdout sample_world
          ++ map (fun key => NotInBucket key (ClientError "NoSuchKey")) ["gone/a"; "gone/b"]),
   Normal tt).
Proof.
  apply (s3_download_missing_keys sample_hexdigest sample_bucket ["gone/a"; "gone/b"] ["/tmp/a"]
           sample_world).
  intros key Hin. apply list_elem_of_In in Hin. simpl in Hin.
  destruct Hin as [<- | [<- | []]]; split; reflexivity.
Defined.

(** X9: If none of the source keys is in the bucket (lists of the same length,
    lookups not failing otherwise), s3_rename sends exactly one get per
    source, prints one source-missing line per source in order, changes
    neither the bucket nor the files, and returns normally. *)
Theorem s3_rename_missing_sources b (src_list dst_list : list string) keep_old make_public w :
  length src_list = length dst_list ->
  (forall key, key ∈ src_list -> faults b (Get key) = None /\ objects w !! key = None) ->
  s3_rename b (src_list, dst_list) keep_old make_public w =
  (World (objects w) (files w)
         (calls w ++ map Get src_list)
         (stdout w ++ map SourceMissing src_list),
   Normal tt).
Proof.
  intros Hlen. unfold s3_rename, bind. cbn [fst snd]. rewrite Hlen, Nat.eqb_refl. cbn [negb ret].
  generalize (length dst_list) as num_files. intros num_files. clear Hlen.
  generalize 0%nat as idx. revert w.
  induction src_list as [|key l IH]; intros w idx Habsent.
  - cbn. rewrite !app_nil_r. now destruct w.
  - cbn [for_enumerate map].
    destruct (Habsent key ltac:(now left)) as [Hf Ho].
    rewrite (s3_rename_body_source_missing b dst_list keep_old make_public num_files idx key
               (ClientError "NoSuchKey") w (lookup_absent _ _ _ Hf Ho)).
    cbn [is_ClientError]. rewrite IH.
    + cbn [objects files calls stdout add_line add_call]. now rewrite <- !app_assoc.
    + intros k Hk. cbn [objects add_line add_call]. apply Habsent. now right.
Qed.

Lemma s3_rename_missing_sources_witness :
  s3_rename sample_bucket (["gone/a"; "gone/b"], ["new/a"; "new/b"]) false false sample_world =
  (World (objects sample_world) (files sample_world)
         (calls sample_world ++ map Get ["gone/a"; "gone/b"])
         (stdout sample_world ++ map SourceMissing ["gone/a"; "gone/b"]),
   Normal tt).
Proof.
  apply (s3_rename_missing_sources sample_bucket ["gone/a"; "gone/b"] ["new/a"; "new/b"]
           false false sample_world).
  - reflexivity.
  - intros key Hin. apply list_elem_of_In in Hin. simpl in Hin.
    destruct Hin as [<- | [<- | []]]; split; reflexivity.
Defined.

(** X10: When the local source file does not exist, the iteration of s3_upload
    raises right after the destination lookup and sends no upload request:
    FileNotFoundError when the lookup answers or fails with a ClientError,
    the error of the lookup otherwise. *)
Theorem s3_upload_missing_local_file
    md5 b s3_list extra_args num_files idx src_file dst_file src dst w :
  s3_list !! idx = Some dst_file ->
  strip_s3_prefix "s3://" src_file dst_file w = (w, Normal (src, dst)) ->
  files w !! src = None ->
  s3_upload_body md5 b s3_list "s3://" extra_args num_files idx src_file w =
  (add_call (Get dst) (add_line (UploadingAs src (name b) dst) w),
   Raised (match lookup b w dst with
           | inl e => if is_ClientError e then OSError "FileNotFoundError" else e
           | inr _ => OSError "FileNotFoundError"
           end)).
Proof.
  intros Hidx Hstrip Hfile.
  rewrite (s3_upload_body_unfold md5 b s3_list extra_args num_files idx src_file dst_file
             src dst w Hidx Hstrip).
  set (w0 := add_line _ w).
  assert (Hd : upload_decision md5 b src dst extra_args w0 =
               (add_call (Get dst) w0,
                Raised (match lookup b w dst with
                        | inl e => if is_ClientError e then OSError "FileNotFoundError" else e
                        | inr _ => OSError "FileNotFoundError"
                        end))).
  { unfold upload_decision, try_except, bind. rewrite Object_get_run.
    change (lookup b w0 dst) with (lookup b w dst).
    destruct (lookup b w dst) as [e|obj]; cbv beta iota.
    - destruct (is_ClientError e) eqn:He; [|reflexivity].
      unfold upload_with_progress, ProgressPercentage.__init__, os_path_getsize, bind, gets.
      cbn [files add_call]. subst w0. cbn [files add_line]. now rewrite Hfile.
    - unfold open_read, bind, gets. cbn [files add_call]. subst w0. cbn [files add_line].
      now rewrite Hfile. }
  now rewrite (bind_Raised _ _ _ _ _ Hd).
Qed.

Lemma s3_upload_missing_local_file_witness :
  s3_upload_body sample_hexdigest sample_bucket ["data/none.txt"] "s3://" ∅ 1 0
    "/tmp/none.txt" sample_world =
  (add_call (Get "data/none.txt")
     (add_line (UploadingAs "/tmp/none.txt" (name sample_bucket) "data/none.txt") sample_world),
   Raised (match lookup sample_bucket sample_world "data/none.txt" with
           | inl e => if is_ClientError e then OSError "FileNotFoundError" else e
           | inr _ => OSError "FileNotFoundError"
           end)).
Proof.
  apply (s3_upload_missing_local_file sample_hexdigest sample_bucket ["data/none.txt"] ∅ 1 0
           "/tmp/none.txt" "data/none.txt" "/tmp/none.txt" "data/none.txt" sample_world);
    reflexivity.
Defined.

(** *** Local paths without a directory *)

Lemma upto_last_slash_free p : free_of "/" p = true -> PyStr.upto_last_slash p = EmptyString.
Proof.
  induction p as [|a p IH]; [reflexivity|]. cbn [free_of PyStr.upto_last_slash].
  intros H. apply andb_true_iff in H as [Ha Hp]. rewrite (IH Hp).
  apply negb_true_iff in Ha. now rewrite Ha.
Qed.

Lemma dirname_free p : free_of "/" p = true -> PyStr.dirname p = EmptyString.
Proof. intros H. unfold PyStr.dirname. now rewrite (upto_last_slash_free p H). Qed.

(** X11: For an object that exists and a local path without any slash, the
    iteration of s3_download ends in the FileNotFoundError of
    os.makedirs('') right after the lookup: no download is requested. *)
Theorem s3_download_bare_filename md5 b local_files num_files idx bkey bobj local_path w :
  lookup b w bkey = inr bobj ->
  local_files !! idx = Some local_path ->
  free_of "/" local_path = true ->
  s3_download_body md5 b local_files num_files idx bkey w
  = (add_call (Get bkey) w, Raised (OSError "FileNotFoundError")).
Proof.
  intros Hget Hidx Hfree. unfold s3_download_body, bind, try_except.
  rewrite Object_get_run, Hget. unfold py_index. rewrite Hidx. cbn [ret].
  rewrite (dirname_free local_path Hfree).
  reflexivity.
Qed.

Lemma s3_download_bare_filename_witness :
  s3_download_body sample_hexdigest sample_bucket ["a.txt"] 1 0 "old/a" sample_world
  = (add_call (Get "old/a") sample_world, Raised (OSError "FileNotFoundError")).
Proof.
  apply (s3_download_bare_filename sample_hexdigest sample_bucket ["a.txt"] 1 0 "old/a"
           (sample_object "AAA") "a.txt" sample_world); reflexivity.
Defined.



(** *** The transfers and the tracker *)

Lemma ProgressPercentage_call_run (self : ProgressPercentage.t) bytes_amount w :
  ProgressPercentage.__call__ self bytes_amount w =
  (add_line (Progress (ProgressPercentage._seen_so_far self + bytes_amount)
                      (ProgressPercentage._size self)
                      (percentage_of (ProgressPercentage._seen_so_far self + bytes_amount)
                                     (ProgressPercentage._size self))) w,
   Normal (ProgressPercentage.Make (ProgressPercentage._filename self)
             (ProgressPercentage._size self)
             (ProgressPercentage._seen_so_far self + bytes_amount))).
Proof.
  unfold ProgressPercentage.__call__, percentage_of, bind, py_truediv.
  now destruct (Z.eqb (ProgressPercentage._size self) 0).
Qed.


Lemma os_path_exists_true p w w' :
  (os_path_exists p w).2 = Normal true -> files w' = files w ->
  os_path_exists p w' = (w', Normal true).
Proof.
  unfold os_path_exists, gets. cbn [snd]. intros [= H] ->. now rewrite H.
Qed.


Lemma parent_exists_nonempty local_path w :
  (os_path_exists (PyStr.dirname local_path) w).2 = Normal true -> local_path <> EmptyString.
Proof.
  intros H ->. unfold os_path_exists, gets in H. cbn in H. discriminate.
Qed.

(** The local file is there: the iteration up to the comparison. *)
Lemma s3_download_body_existing md5 b local_files num_files idx bkey bobj local_path content w :
  lookup b w bkey = inr bobj ->
  local_files !! idx = Some local_path ->
  (os_path_exists (PyStr.dirname local_path) w).2 = Normal true ->
  files w !! local_path = Some (File content) ->
  s3_download_body md5 b local_files num_files idx bkey w =
  bind (if String.eqb (md5 content) (PyStr.strip dquote (e_tag bobj))
        then print (SkippingDownloaded bkey)
        else try_except
               (print (Overwriting local_path) ;;
                let* callback :=
                  ProgressPercentage.__init__ (WithContentLength (content_length bobj)) in
                Bucket_download_file b bkey local_path callback)
               is_Exception
               (fun exc => print (CouldNotDownload bkey exc)))
       (fun _ => let* per := percent_done (S idx) num_files in
                 print (FinishedFile (S idx) num_files per))
       (add_call (Get bkey) w).
Proof.
  intros Hget Hidx Hparent Hfile.
  pose proof (parent_exists_nonempty _ _ Hparent) as Hne.
  unfold s3_download_body.
  unfold bind at 1. unfold try_except at 1. rewrite Object_get_run, Hget.
  unfold bind at 1. unfold py_index. rewrite Hidx. cbn [ret].
  unfold bind at 1.
  rewrite (os_path_exists_true _ _ (add_call (Get bkey) w) Hparent) by reflexivity.
  cbn [negb]. unfold bind at 1. cbn [ret].
  unfold bind at 1.
  rewrite (os_path_exists_present local_path (File content) _ Hne) by exact Hfile.
  unfold bind at 1. unfold bind at 1. unfold os_path_isdir, gets. cbn [files add_call].
  rewrite Hfile. unfold bind at 1. cbn [ret].
  unfold bind at 1. unfold open_read at 1. unfold bind at 1. unfold gets.
  cbn [files add_call]. rewrite Hfile. cbn [ret].
  reflexivity.
Qed.



(** X13: When the local file exists, its directory too, and its MD5 equals the
    ETag of the object with its quotes stripped, the iteration of
    s3_download sends the get request only, prints the already-downloaded
    line, leaves the local files as they were and ends normally. *)
Theorem s3_download_skips_up_to_date
    md5 b local_files num_files idx bkey bobj local_path content w :
  lookup b w bkey = inr bobj ->
  local_files !! idx = Some local_path ->
  (os_path_exists (PyStr.dirname local_path) w).2 = Normal true ->
  files w !! local_path = Some (File content) ->
  md5 content = PyStr.strip dquote (e_tag bobj) ->
  let body := s3_download_body md5 b local_files num_files idx bkey in
  files (body w).1 = files w
  /\ issued body w = [Get bkey]
  /\ SkippingDownloaded bkey ∈ printed body w
  /\ (num_files <> 0%nat -> (body w).2 = Normal tt).
Proof.
  intros Hget Hidx Hparent Hfile Hmd5. cbv zeta. unfold issued, printed.
  rewrite (s3_download_body_existing md5 b local_files num_files idx bkey bobj local_path
             content w Hget Hidx Hparent Hfile).
  rewrite Hmd5, String.eqb_refl.
  rewrite (bind_Normal _ _ _ (add_line (SkippingDownloaded bkey) (add_call (Get bkey) w)) tt)
    by reflexivity.
  unfold bind, percent_done.
  destruct num_files; cbn; rewrite <- ?app_assoc, !drop_app_length; repeat split;
    try (now left); try (intros H; now contradict H).
Qed.

Lemma s3_download_skips_up_to_date_witness :
  let body := s3_download_body sample_hexdigest sample_bucket ["/tmp/a.txt"] 1 0 "old/a" in
  files (body mirrored_world).1 = files mirrored_world
  /\ issued body mirrored_world = [Get "old/a"]
  /\ SkippingDownloaded "old/a" ∈ printed body mirrored_world
  /\ (1%nat <> 0%nat -> (body mirrored_world).2 = Normal tt).
Proof.
  apply (s3_download_skips_up_to_date sample_hexdigest sample_bucket ["/tmp/a.txt"] 1 0
           "old/a" (sample_object "hello") "/tmp/a.txt" "hello" mirrored_world); reflexivity.
Defined.

(** *** There and back *)






Lemma s3_rename_body_moves b dst_list make_public num_files idx src_f dst_key obj w :
  (forall c, faults b c = None) ->
  dst_list !! idx = Some dst_key ->
  objects w !! src_f = Some obj ->
  objects w !! dst_key = None ->
  objects (s3_rename_body b dst_list false make_public num_files idx src_f w).1
  = delete src_f (<[dst_key := obj]> (objects w)).
Proof.
  intros Hfree Hidx Hsrc Hdst.
  pose proof (s3_rename_body_copies b dst_list false make_public num_files idx src_f dst_key
                obj "NoSuchKey" w (lookup_present _ _ _ _ (Hfree _) Hsrc) Hidx
                (lookup_absent _ _ _ (Hfree _) Hdst) (Hfree _)) as Hrun.
  cbv zeta in Hrun. rewrite Hrun. clear Hrun. cbn [negb].
  set (w4 := set_objects _ _).
  rewrite (bind_Normal (Object_delete b src_f) _ w4
             (set_objects (delete src_f) (add_call (Delete src_f) w4)) tt)
    by (rewrite Object_delete_run, Hfree; reflexivity).
  destruct (rename_status_run idx num_files
              (set_objects (delete src_f) (add_call (Delete src_f) w4))) as (-> & _).
  subst w4. now destruct make_public.
Qed.

(** X15: In a bucket whose requests do not fail, renaming key a to an absent key
    c and then c back to a (keep_old false both times) leaves the objects of
    the bucket exactly as they were. *)
Theorem s3_rename_there_and_back b a c obj make_public make_public' w :
  (forall r, faults b r = None) ->
  objects w !! a = Some obj ->
  objects w !! c = None ->
  objects (s3_rename b ([c], [a]) false make_public'
             (s3_rename b ([a], [c]) false make_public w).1).1
  = objects w.
Proof.
  intros Hfree Ha Hc. assert (Hne : a <> c) by congruence.
  rewrite !s3_rename_single_world.
  pose proof (s3_rename_body_moves b [c] make_public 1 0 a c obj w Hfree eq_refl Ha Hc) as H1.
  set (w1 := (s3_rename_body b [c] false make_public 1 0 a w).1) in *.
  rewrite (s3_rename_body_moves b [a] make_public' 1 0 c a obj w1 Hfree eq_refl).
  - rewrite H1. apply map_eq. intros k.
    destruct (decide (k = c)) as [->|Hkc]; [now rewrite lookup_delete_eq|].
    rewrite lookup_delete_ne by congruence.
    destruct (decide (k = a)) as [->|Hka]; [now rewrite lookup_insert_eq|].
    rewrite lookup_insert_ne, lookup_delete_ne, lookup_insert_ne by congruence. reflexivity.
  - rewrite H1, lookup_delete_ne by congruence. apply lookup_insert_eq.
  - rewrite H1. apply lookup_delete_eq.
Qed.

Lemma s3_rename_there_and_back_witness :
  objects (s3_rename sample_bucket (["new/a"], ["old/a"]) false false
             (s3_rename sample_bucket (["old/a"], ["new/a"]) false true sample_world).1).1
  = objects sample_world.
Proof.
  apply (s3_rename_there_and_back sample_bucket "old/a" "new/a" (sample_object "AAA")
           true false sample_world).
  - intros r. reflexivity.
  - reflexivity.
  - reflexivity.
Defined.

(** *** ProgressPercentage: the running total *)

Lemma ProgressPercentage_deliver_run (self : ProgressPercentage.t) (chunks : list Z) w :
  ProgressPercentage.deliver self chunks w =
  (World (objects w) (files w) (calls w)
         (stdout w ++
          map (fun seen => Progress seen (ProgressPercentage._size self)
                             (percentage_of seen (ProgressPercentage._size self)))
              (running_totals (ProgressPercentage._seen_so_far self) chunks)),
   Normal (ProgressPercentage.Make (ProgressPercentage._filename self)
             (ProgressPercentage._size self)
             (ProgressPercentage._seen_so_far self + foldr Z.add 0%Z chunks))).
Proof.
  revert self w. induction chunks as [|n chunks IH]; intros self w.
  - cbn. rewrite app_nil_r, Z.add_0_r. now destruct w, self.
  - cbn [ProgressPercentage.deliver running_totals map foldr].
    rewrite (bind_Normal _ _ w _ _ (ProgressPercentage_call_run self n w)), IH.
    cbn [objects files calls stdout add_line ProgressPercentage._filename
         ProgressPercentage._size ProgressPercentage._seen_so_far].
    now rewrite <- app_assoc, Z.add_assoc.
Qed.

(** X16: Calling a ProgressPercentage tracker once per chunk prints one progress
    line per call, each with the running total of the bytes seen so far, the
    size, and the percentage running_total / size * 100 (0 when the size is
    0). Afterwards _seen_so_far has grown by the sum of the chunks, _size
    and _filename are as before, and nothing but standard output was
    touched. *)
Theorem ProgressPercentage_accumulates (self : ProgressPercentage.t) (chunks : list Z) w :
  let r := ProgressPercentage.deliver self chunks w in
  printed (ProgressPercentage.deliver self chunks) w =
    map (fun seen => Progress seen (ProgressPercentage._size self)
                       (percentage_of seen (ProgressPercentage._size self)))
        (running_totals (ProgressPercentage._seen_so_far self) chunks)
  /\ objects r.1 = objects w /\ files r.1 = files w /\ calls r.1 = calls w
  /\ r.2 = Normal (ProgressPercentage.Make (ProgressPercentage._filename self)
                     (ProgressPercentage._size self)
                     (ProgressPercentage._seen_so_far self + foldr Z.add 0%Z chunks)).
Proof.
  cbv zeta. unfold printed. rewrite ProgressPercentage_deliver_run.
  cbn [fst snd objects files calls stdout]. rewrite drop_app_length. now repeat split.
Qed.

Lemma percentage_of_total total : total <> 0%Z -> (percentage_of total total == 100)%Q.
Proof.
  intros H. unfold percentage_of. rewrite (proj2 (Z.eqb_neq _ _) H).
  field. intros Hq. unfold Qeq in Hq. cbn in Hq. lia.
Qed.

Lemma last_running_totals chunks : forall seen,
  chunks <> [] -> last (running_totals seen chunks) = Some (seen + foldr Z.add 0%Z chunks)%Z.
Proof.
  induction chunks as [|n chunks IH]; intros seen Hne; [contradiction|].
  destruct chunks as [|n' chunks].
  - cbn [running_totals foldr last]. f_equal. lia.
  - specialize (IH (seen + n)%Z ltac:(discriminate)).
    cbn [running_totals foldr] in *. rewrite last_cons, IH. f_equal. lia.
Qed.

(** X17: For a tracker of non-zero size that starts at 0, when the chunks
    delivered (at least one) add up to the size, the last line printed shows
    size / size and a percentage equal to 100. *)
Theorem ProgressPercentage_ends_at_100 filename total (chunks : list Z) w :
  total <> 0%Z ->
  chunks <> [] ->
  foldr Z.add 0%Z chunks = total ->
  exists percentage,
    last (stdout (ProgressPercentage.deliver (ProgressPercentage.Make filename total 0)
                    chunks w).1)
    = Some (Progress total total percentage)
    /\ (percentage == 100)%Q.
Proof.
  intros Htotal Hne Hsum. exists (percentage_of total total).
  split; [|now apply percentage_of_total].
  rewrite ProgressPercentage_deliver_run.
  cbn [fst stdout ProgressPercentage._size ProgressPercentage._seen_so_far].
  rewrite last_app, fmap_last, (last_running_totals chunks 0 Hne), Hsum. reflexivity.
Qed.

Lemma ProgressPercentage_ends_at_100_witness :
  exists percentage,
    last (stdout (ProgressPercentage.deliver
                    (ProgressPercentage.Make (WithContentLength 12) 12 0)
                    [5; 7]%Z sample_world).1)
    = Some (Progress 12 12 percentage)
    /\ (percentage == 100)%Q.
Proof.
  apply (ProgressPercentage_ends_at_100 (WithContentLength 12) 12 [5; 7]%Z sample_world).
  - lia.
  - discriminate.
  - reflexivity.
Defined.

(** ** md5_sum *)

Lemma elem_of_objects_filter prefix w key obj :
  (key, obj) ∈ objects_filter prefix w
  <-> objects w !! key = Some obj /\ PyStr.startswith key prefix = true.
Proof.
  unfold objects_filter. rewrite merge_sort_Permutation, list_elem_of_filter,
    elem_of_map_to_list. cbn [fst]. tauto.
Qed.

Lemma NoDup_objects_filter prefix w : NoDup (objects_filter prefix w).*1.
Proof.
  unfold objects_filter. rewrite merge_sort_Permutation.
  apply (sublist_NoDup _ (map_to_list (objects w)).*1);
    [apply NoDup_fst_map_to_list | apply fmap_sublist, sublist_filter].
Qed.

(** The loop when every object it looks at has the attribute. *)
Lemma md5_sum_loop_lookup etag filt_str l : forall md5_dict out,
  NoDup l.*1 ->
  (forall kv, kv ∈ l -> occurs filt_str kv.1 = true -> is_Some (etag kv.2)) ->
  exists md5_dict',
    (md5_sum_loop etag filt_str l md5_dict out).2 = inr md5_dict'
    /\ forall key,
         md5_dict' !! key =
         match (list_to_map l : gmap string s3object) !! key with
         | Some obj =>
             if occurs filt_str key then PyStr.strip dquote <$> etag obj
             else md5_dict !! key
         | None => md5_dict !! key
         end.
Proof.
  induction l as [|[k o] l IH]; intros md5_dict out Hnd Hetag.
  - exists md5_dict. split; reflexivity.
  - cbn [fmap list_fmap fst] in Hnd. apply NoDup_cons in Hnd as [Hk Hnd].
    assert (Hetag' : forall kv, kv ∈ l -> occurs filt_str kv.1 = true -> is_Some (etag kv.2))
      by (intros kv Hin; apply Hetag; now right).
    cbn [md5_sum_loop fst snd list_to_map foldr].
    destruct (occurs filt_str k) eqn:Hocc.
    + destruct (Hetag (k, o) ltac:(left) Hocc) as [e He]. cbn [snd] in He. rewrite He.
      destruct (IH (<[k := PyStr.strip dquote e]> md5_dict)
                  (out ++ [FilenameLine k; Md5SumLine (PyStr.strip dquote e)]) Hnd Hetag')
        as (d & Hd & Hlookup).
      exists d. split; [exact Hd|]. intros key. rewrite Hlookup.
      destruct (decide (key = k)) as [->|Hne].
      * rewrite (not_elem_of_list_to_map_1 l k) by exact Hk.
        rewrite !lookup_insert_eq, Hocc, He. reflexivity.
      * rewrite !lookup_insert_ne by congruence. reflexivity.
    + destruct (IH md5_dict out Hnd Hetag') as (d & Hd & Hlookup).
      exists d. split; [exact Hd|]. intros key. rewrite Hlookup.
      destruct (decide (key = k)) as [->|Hne].
      * rewrite (not_elem_of_list_to_map_1 l k) by exact Hk.
        rewrite lookup_insert_eq, Hocc. reflexivity.
      * rewrite lookup_insert_ne by congruence. reflexivity.
Qed.

(** X18: When the listing is answered and the attribute bkey.etag can be read on
    every listed object whose key contains filt_str, md5_sum returns a
    dictionary whose keys are exactly the keys of the bucket that start with
    prefix and contain filt_str, each mapped to the value of that attribute
    with the surrounding double quotes stripped. *)
Theorem md5_sum_dictionary etag prefix filt_str w :
  (forall key obj,
     objects w !! key = Some obj ->
     PyStr.startswith key prefix = true -> occurs filt_str key = true ->
     is_Some (etag obj)) ->
  exists md5_dict,
    (md5_sum etag None prefix filt_str w).2 = inr md5_dict
    /\ forall key,
         md5_dict !! key =
         match objects w !! key with
         | Some obj =>
             if PyStr.startswith key prefix && occurs filt_str key
             then PyStr.strip dquote <$> etag obj
             else None
         | None => None
         end.
Proof.
  intros Hetag. unfold md5_sum.
  destruct (md5_sum_loop_lookup etag filt_str (objects_filter prefix w) ∅ [])
    as (d & Hd & Hlookup); [apply NoDup_objects_filter | |].
  { intros [k o] Hin Hocc. apply elem_of_objects_filter in Hin as [Ho Hp].
    exact (Hetag k o Ho Hp Hocc). }
  exists d. split; [exact Hd|]. intros key. rewrite Hlookup, lookup_empty.
  destruct ((list_to_map (objects_filter prefix w) : gmap string s3object) !! key)
    as [obj|] eqn:Hl.
  - apply elem_of_list_to_map in Hl; [|apply NoDup_objects_filter].
    apply elem_of_objects_filter in Hl as [-> ->]. cbn [andb].
    now destruct (occurs filt_str key).
  - destruct (objects w !! key) as [obj|] eqn:Ho; [|reflexivity].
    destruct (PyStr.startswith key prefix) eqn:Hp; [|reflexivity].
    exfalso. apply not_elem_of_list_to_map in Hl. apply Hl.
    apply list_elem_of_fmap. exists (key, obj). split; [reflexivity|].
    now apply elem_of_objects_filter.
Qed.

Lemma md5_sum_dictionary_witness :
  exists md5_dict,
    (md5_sum etag_present None "old/" "a" two_objects_world).2 = inr md5_dict
    /\ forall key,
         md5_dict !! key =
         match objects two_objects_world !! key with
         | Some obj =>
             if PyStr.startswith key "old/" && occurs "a" key
             then PyStr.strip dquote <$> etag_present obj
             else None
         | None => None
         end.
Proof.
  apply (md5_sum_dictionary etag_present "old/" "a" two_objects_world).
  intros key obj _ _ _. exists (e_tag obj). reflexivity.
Defined.

(** The loop stops at the first object it keeps when that object lacks the
    attribute, and otherwise goes through without a word. *)
Lemma md5_sum_loop_no_attribute etag filt_str l : forall md5_dict out,
  (forall kv, kv ∈ l -> etag kv.2 = None) ->
  md5_sum_loop etag filt_str l md5_dict out =
  (out, if existsb (fun kv => occurs filt_str kv.1) l
        then inl (AttributeError "etag") else inr md5_dict).
Proof.
  induction l as [|[k o] l IH]; intros md5_dict out Hetag; [reflexivity|].
  cbn [md5_sum_loop existsb fst snd].
  destruct (occurs filt_str k) eqn:Hocc; cbn [orb].
  - pose proof (Hetag (k, o) ltac:(left)) as He. cbn [snd] in He. now rewrite He.
  - apply IH. intros kv Hin. apply Hetag. now right.
Qed.

(** X19: If the listed objects have no attribute etag (boto3 names the ETag of
    an object summary e_tag), md5_sum raises AttributeError, with nothing
    printed, as soon as one key under the prefix contains filt_str; it
    returns, with an empty dictionary, only when no key under the prefix
    contains filt_str. *)
Theorem md5_sum_missing_attribute etag prefix filt_str w :
  (forall obj, etag obj = None) ->
  ((exists key obj,
      objects w !! key = Some obj
      /\ PyStr.startswith key prefix = true /\ occurs filt_str key = true) ->
   md5_sum etag None prefix filt_str w = ([], inl (AttributeError "etag")))
  /\ ((forall key obj,
         objects w !! key = Some obj ->
         PyStr.startswith key prefix = true -> occurs filt_str key = false) ->
      md5_sum etag None prefix filt_str w = ([], inr ∅)).
Proof.
  intros Hetag. unfold md5_sum.
  rewrite md5_sum_loop_no_attribute by (intros; apply Hetag).
  split.
  - intros (key & obj & Ho & Hp & Hocc).
    assert (Hex : existsb (fun kv => occurs filt_str kv.1) (objects_filter prefix w) = true).
    { apply existsb_exists. exists (key, obj). split; [|exact Hocc].
      apply list_elem_of_In. now apply elem_of_objects_filter. }
    now rewrite Hex.
  - intros Hnone.
    assert (Hex : existsb (fun kv => occurs filt_str kv.1) (objects_filter prefix w) = false).
    { apply not_true_iff_false. intros Hex. apply existsb_exists in Hex as ([k o] & Hin & Hocc).
      apply list_elem_of_In, elem_of_objects_filter in Hin as [Ho Hp].
      cbn [fst] in Hocc. now rewrite (Hnone k o Ho Hp) in Hocc. }
    now rewrite Hex.
Qed.

Lemma md5_sum_missing_attribute_witness :
  ((exists key obj,
      objects two_objects_world !! key = Some obj
      /\ PyStr.startswith key "old/" = true /\ occurs "a" key = true) ->
   md5_sum etag_missing None "old/" "a" two_objects_world = ([], inl (AttributeError "etag")))
  /\ ((forall key obj,
         objects two_objects_world !! key = Some obj ->
         PyStr.startswith key "old/" = true -> occurs "a" key = false) ->
      md5_sum etag_missing None "old/" "a" two_objects_world = ([], inr ∅)).
Proof.
  apply (md5_sum_missing_attribute etag_missing "old/" "a" two_objects_world).
  intros obj. reflexivity.
Defined.

Example md5_sum_run :
  md5_sum etag_present None "old/" "" two_objects_world =
  ([FilenameLine "old/a"; Md5SumLine "md5-AAA"; FilenameLine "old/b"; Md5SumLine "md5-BBB"],
   inr (<["old/b" := "md5-BBB"]> (<["old/a" := "md5-AAA"]> ∅))).
Proof. vm_compute. reflexivity. Qed.

(** ** fetch_creds *)

(** *** Fields, rows and line ends *)

Lemma append_nil_r s : s +:+ EmptyString = s.
Proof.
  induction s as [|x s IH]; [reflexivity|].
  change (String x s +:+ EmptyString) with (String x (s +:+ EmptyString)). now rewrite IH.
Qed.

Lemma free_of_app c a b : free_of c (a +:+ b) = free_of c a && free_of c b.
Proof.
  induction a as [|x a IH]; [reflexivity|].
  change (String x a +:+ b) with (String x (a +:+ b)). cbn [free_of].
  rewrite IH. now rewrite andb_assoc.
Qed.

Lemma prefix_free c p : forall s,
  String.prefix p s = true -> free_of c s = true -> free_of c p = true.
Proof.
  induction p as [|x p IH]; intros s Hp Hs; [reflexivity|].
  destruct s as [|y s]; [discriminate|]. cbn [String.prefix] in Hp.
  destruct (ascii_dec x y) as [->|]; [|discriminate].
  cbn [free_of] in *. apply andb_true_iff in Hs as [-> Hs]. exact (IH s Hp Hs).
Qed.

(** A string that holds a character is no part of a string without it. *)
Lemma occurs_free c old s :
  free_of c old = false -> free_of c s = true -> occurs old s = false.
Proof.
  intros Hold. induction s as [|y s IH]; intros Hs.
  - destruct old; [discriminate | reflexivity].
  - cbn [occurs]. apply orb_false_iff. split.
    + destruct (String.prefix old (String y s)) eqn:Hp; [|reflexivity].
      rewrite (prefix_free c _ _ Hp Hs) in Hold. discriminate.
    + apply IH. cbn [free_of] in Hs. now apply andb_true_iff in Hs as [_ Hs].
Qed.

Lemma prefix_app_l p : forall a b,
  String.prefix p a = true -> String.prefix p (a +:+ b) = true.
Proof.
  induction p as [|x p IH]; intros a b Hp; [now destruct (a +:+ b)|].
  destruct a as [|y a]; [discriminate|].
  change (String y a +:+ b) with (String y (a +:+ b)). cbn [String.prefix] in *.
  destruct (ascii_dec x y); [now apply IH | discriminate].
Qed.

Lemma occurs_app_l old a b : occurs old a = true -> occurs old (a +:+ b) = true.
Proof.
  induction a as [|y a IH]; intros H.
  - cbn [occurs] in H. destruct old; [|discriminate]. now destruct b.
  - change (String y a +:+ b) with (String y (a +:+ b)). cbn [occurs] in *.
    apply orb_true_iff in H as [H|H]; apply orb_true_iff.
    + left. exact (prefix_app_l old (String y a) b H).
    + right. now apply IH.
Qed.

Lemma occurs_prefix old s : String.prefix old s = true -> occurs old s = true.
Proof. destruct s; cbn [occurs]; intros ->; reflexivity. Qed.

Lemma split_field sep a b :
  free_of sep a = true -> PyStr.split sep (a +:+ String sep b) = a :: PyStr.split sep b.
Proof.
  induction a as [|x a IH]; intros Hfree.
  - change (EmptyString +:+ String sep b) with (String sep b). cbn [PyStr.split].
    now rewrite Ascii.eqb_refl.
  - cbn [free_of] in Hfree. apply andb_true_iff in Hfree as [Hx Hfree].
    change (String x a +:+ String sep b) with (String x (a +:+ String sep b)).
    cbn [PyStr.split]. apply negb_true_iff in Hx. rewrite Hx, (IH Hfree). reflexivity.
Qed.

Lemma split_single sep a : free_of sep a = true -> PyStr.split sep a = [a].
Proof.
  induction a as [|x a IH]; intros Hfree; [reflexivity|].
  cbn [free_of] in Hfree. apply andb_true_iff in Hfree as [Hx Hfree].
  cbn [PyStr.split]. apply negb_true_iff in Hx. rewrite Hx, (IH Hfree). reflexivity.
Qed.

Lemma prefix_char c x s :
  String.prefix (String c EmptyString) (String x s) = Ascii.eqb x c.
Proof.
  cbn [String.prefix]. destruct (ascii_dec c x) as [->|Hne].
  - rewrite Ascii.eqb_refl. now destruct s.
  - symmetry. apply Ascii.eqb_neq. congruence.
Qed.

(** Removing a character: [s.replace(c, '')]. *)
Lemma replace_char_cons c x s :
  PyStr.replace (String x s) (String c EmptyString) EmptyString =
  if Ascii.eqb x c then PyStr.replace s (String c EmptyString) EmptyString
  else String x (PyStr.replace s (String c EmptyString) EmptyString).
Proof.
  unfold PyStr.replace. cbn [PyStr.replace_from]. rewrite prefix_char.
  destruct (Ascii.eqb x c); reflexivity.
Qed.

Lemma replace_char_free c s :
  free_of c (PyStr.replace s (String c EmptyString) EmptyString) = true.
Proof.
  induction s as [|x s IH]; [reflexivity|]. rewrite replace_char_cons.
  destruct (Ascii.eqb x c) eqn:Hx; [exact IH|]. cbn [free_of]. now rewrite Hx, IH.
Qed.

Lemma replace_char_keeps_free c d s :
  free_of d s = true -> free_of d (PyStr.replace s (String c EmptyString) EmptyString) = true.
Proof.
  induction s as [|x s IH]; [reflexivity|]. cbn [free_of]. intros H.
  apply andb_true_iff in H as [Hx H]. rewrite replace_char_cons.
  destruct (Ascii.eqb x c); [now apply IH|]. cbn [free_of]. now rewrite Hx, IH.
Qed.

Lemma replace_char_absent c s :
  free_of c s = true -> PyStr.replace s (String c EmptyString) EmptyString = s.
Proof.
  induction s as [|x s IH]; [reflexivity|]. cbn [free_of]. intros H.
  apply andb_true_iff in H as [Hx H]. rewrite replace_char_cons.
  apply negb_true_iff in Hx. now rewrite Hx, IH.
Qed.

Lemma replace_char_last c s :
  free_of c s = true ->
  PyStr.replace (s +:+ String c EmptyString) (String c EmptyString) EmptyString = s.
Proof.
  induction s as [|x s IH]; cbn [free_of]; intros H.
  - change (EmptyString +:+ String c EmptyString) with (String c EmptyString).
    rewrite replace_char_cons, Ascii.eqb_refl. reflexivity.
  - apply andb_true_iff in H as [Hx H].
    change (String x s +:+ String c EmptyString) with (String x (s +:+ String c EmptyString)).
    rewrite replace_char_cons. apply negb_true_iff in Hx. now rewrite Hx, IH.
Qed.

Section fetch_creds_facts.

Import fetch_creds.

Lemma readline_last row :
  free_of cr row = true -> free_of lf row = true -> readline row = (row, EmptyString).
Proof.
  induction row as [|x row IH]; [reflexivity|]. cbn [free_of]. intros Hcr Hlf.
  apply andb_true_iff in Hcr as [Hxcr Hcr]. apply andb_true_iff in Hlf as [Hxlf Hlf].
  apply negb_true_iff in Hxcr, Hxlf. cbn [readline].
  now rewrite Hxlf, Hxcr, (IH Hcr Hlf).
Qed.

Lemma readline_line row eol rest :
  free_of cr row = true -> free_of lf row = true -> line_end eol ->
  readline (row +:+ eol +:+ rest) = (row +:+ String lf EmptyString, rest).
Proof.
  intros Hcr Hlf Heol. induction row as [|x row IH].
  - destruct Heol as [-> | ->]; reflexivity.
  - cbn [free_of] in Hcr, Hlf.
    apply andb_true_iff in Hcr as [Hxcr Hcr]. apply andb_true_iff in Hlf as [Hxlf Hlf].
    apply negb_true_iff in Hxcr, Hxlf.
    change (String x row +:+ eol +:+ rest) with (String x (row +:+ eol +:+ rest)).
    cbn [readline]. now rewrite Hxlf, Hxcr, (IH Hcr Hlf).
Qed.

(** The last row that is read, whether the file goes on after it or not. *)
Lemma readline_row row ending :
  free_of cr row = true -> free_of lf row = true -> rest_of_file ending ->
  exists nl,
    (nl = EmptyString \/ nl = String lf EmptyString)
    /\ (readline (row +:+ ending)).1 = row +:+ nl.
Proof.
  intros Hcr Hlf [-> | (eol & rest & Heol & ->)].
  - exists EmptyString. split; [now left|].
    rewrite !append_nil_r. now rewrite readline_last.
  - exists (String lf EmptyString). split; [now right|].
    now rewrite readline_line.
Qed.

Lemma strip_newlines_field s nl :
  free_of cr s = true -> free_of lf s = true ->
  nl = EmptyString \/ nl = String lf EmptyString ->
  strip_newlines (s +:+ nl) = s.
Proof.
  intros Hcr Hlf [-> | ->]; unfold strip_newlines.
  - rewrite append_nil_r, (replace_char_absent cr s Hcr). exact (replace_char_absent lf s Hlf).
  - rewrite (replace_char_absent cr) by (rewrite free_of_app, Hcr; reflexivity).
    now apply replace_char_last.
Qed.

End fetch_creds_facts.

Section fetch_creds_props.

Import fetch_creds.

(** What [return_aws_keys] makes of a file of two rows. *)
Lemma return_aws_keys_rows creds_path fs row1 eol row2 ending :
  free_of cr row1 = true -> free_of lf row1 = true ->
  free_of cr row2 = true -> free_of lf row2 = true ->
  line_end eol -> rest_of_file ending ->
  fs !! creds_path = Some (File (row1 +:+ eol +:+ row2 +:+ ending)) ->
  exists nl,
    (nl = EmptyString \/ nl = String lf EmptyString)
    /\ return_aws_keys creds_path fs =
       let row1 := row1 +:+ String lf EmptyString in
       let row2 := row2 +:+ nl in
       let keys :=
         if occurs "User Name" row1 then
           match index (PyStr.split "," row2) 1 with
           | inl exc => inl exc
           | inr aws_access_key_id =>
               match index (PyStr.split "," row2) 2 with
               | inl exc => inl exc
               | inr aws_secret_access_key => inr (aws_access_key_id, aws_secret_access_key)
               end
           end
         else if occurs "AWSAccessKeyId" row1 then
           match index (PyStr.split "=" row1) 1 with
           | inl exc => inl exc
           | inr aws_access_key_id =>
               match index (PyStr.split "=" row2) 1 with
               | inl exc => inl exc
               | inr aws_secret_access_key => inr (aws_access_key_id, aws_secret_access_key)
               end
           end
         else inl (Exception "Credentials file not recognized, check file is correct") in
       match keys with
       | inl exc => inl exc
       | inr (aws_access_key_id, aws_secret_access_key) =>
           inr (strip_newlines aws_access_key_id, strip_newlines aws_secret_access_key)
       end.
Proof.
  intros Hcr1 Hlf1 Hcr2 Hlf2 Heol Hending Hfs.
  destruct (readline_row row2 ending Hcr2 Hlf2 Hending) as (nl & Hnl & Hrow2).
  exists nl. split; [exact Hnl|].
  unfold return_aws_keys. rewrite Hfs, (readline_line row1 eol _ Hcr1 Hlf1 Heol).
  destruct (readline (row2 +:+ ending)) as [r2 rest2]. cbn [fst] in Hrow2. subst r2.
  reflexivity.
Qed.

(** X20: For a root-keys file whose first line is AWSAccessKeyId=<id> and whose
    second line is <label>=<secret>, the lines ending in LF or CR LF (the
    second may end the file), return_aws_keys returns exactly (id, secret),
    provided id, label and secret hold no '=', CR or LF and id no space. *)
Theorem return_aws_keys_root_keys creds_path fs key_id label secret eol ending :
  field "=" key_id = true -> free_of " " key_id = true ->
  field "=" label = true -> field "=" secret = true ->
  line_end eol -> rest_of_file ending ->
  fs !! creds_path =
    Some (File ("AWSAccessKeyId=" +:+ key_id +:+ eol +:+ label +:+ "=" +:+ secret +:+ ending)) ->
  return_aws_keys creds_path fs = inr (key_id, secret).
Proof.
  unfold field. intros Hid Hsp Hlabel Hsecret Heol Hending Hfs.
  assert (Hrows : fs !! creds_path =
    Some (File (("AWSAccessKeyId=" +:+ key_id) +:+ eol +:+ (label +:+ "=" +:+ secret) +:+ ending)))
    by (rewrite !append_assoc; exact Hfs).
  apply andb_true_iff in Hid as [Hid Hidlf]. apply andb_true_iff in Hid as [Hideq Hidcr].
  apply andb_true_iff in Hlabel as [Hlabel Hlabellf].
  apply andb_true_iff in Hlabel as [Hlabeleq Hlabelcr].
  apply andb_true_iff in Hsecret as [Hsecret Hsecretlf].
  apply andb_true_iff in Hsecret as [Hsecreteq Hsecretcr].
  destruct (return_aws_keys_rows creds_path fs ("AWSAccessKeyId=" +:+ key_id) eol
              (label +:+ "=" +:+ secret) ending) as (nl & Hnl & ->);
    try assumption;
    try (rewrite !free_of_app; cbn [free_of];
         repeat match goal with H : free_of _ _ = true |- _ => rewrite H end; reflexivity).
  cbv zeta.
  rewrite (occurs_free " " "User Name")
    by (try reflexivity; rewrite !free_of_app, Hsp; reflexivity).
  rewrite (occurs_app_l "AWSAccessKeyId")
    by (apply occurs_prefix; exact (prefix_append "AWSAccessKeyId" ("=" +:+ key_id))).
  change ("AWSAccessKeyId=" +:+ key_id) with ("AWSAccessKeyId" +:+ String "=" key_id).
  rewrite append_assoc.
  change (String "=" key_id +:+ String lf EmptyString)
    with (String "=" (key_id +:+ String lf EmptyString)).
  rewrite (split_field "=" "AWSAccessKeyId") by reflexivity.
  rewrite (split_single "=" (key_id +:+ String lf EmptyString))
    by (rewrite free_of_app, Hideq; reflexivity).
  cbn [index lookup list_lookup].
  rewrite append_assoc.
  change ("=" +:+ secret) with (String "=" secret).
  change (String "=" secret +:+ nl) with (String "=" (secret +:+ nl)).
  rewrite (split_field "=" label) by exact Hlabeleq.
  rewrite (split_single "=" (secret +:+ nl))
    by (rewrite free_of_app, Hsecreteq; destruct Hnl as [-> | ->]; reflexivity).
  cbn [index lookup list_lookup].
  unfold index. cbn.
  rewrite (strip_newlines_field key_id (String lf EmptyString)) by auto.
  rewrite (strip_newlines_field secret nl) by auto.
  reflexivity.
Qed.

Lemma return_aws_keys_root_keys_witness :
  return_aws_keys "/home/root.csv" credentials_files = inr ("AKIDEXAMPLE", "SECRETEXAMPLE").
Proof.
  apply (return_aws_keys_root_keys "/home/root.csv" credentials_files
           "AKIDEXAMPLE" "AWSSecretKey" "SECRETEXAMPLE" crlf crlf).
  - reflexivity.
  - reflexivity.
  - reflexivity.
  - reflexivity.
  - right. reflexivity.
  - right. exists crlf, EmptyString. split; [right|]; reflexivity.
  - reflexivity.
Defined.

(** X21: For a user-keys file whose header line contains 'User Name' and whose
    second line is <user>,<id>,<secret>, the header ending in LF or CR LF
    (the second line may end the file), return_aws_keys returns exactly (id,
    secret), provided the three fields hold no comma, CR or LF. *)
Theorem return_aws_keys_user_keys creds_path fs header user key_id secret eol ending :
  occurs "User Name" header = true ->
  free_of cr header = true -> free_of lf header = true ->
  field "," user = true -> field "," key_id = true -> field "," secret = true ->
  line_end eol -> rest_of_file ending ->
  fs !! creds_path =
    Some (File (header +:+ eol +:+ user +:+ "," +:+ key_id +:+ "," +:+ secret +:+ ending)) ->
  return_aws_keys creds_path fs = inr (key_id, secret).
Proof.
  unfold field. intros Hmark Hhcr Hhlf Huser Hid Hsecret Heol Hending Hfs.
  apply andb_true_iff in Huser as [Huser Huserlf].
  apply andb_true_iff in Huser as [Huserc Husercr].
  apply andb_true_iff in Hid as [Hid Hidlf]. apply andb_true_iff in Hid as [Hidc Hidcr].
  apply andb_true_iff in Hsecret as [Hsecret Hsecretlf].
  apply andb_true_iff in Hsecret as [Hsecretc Hsecretcr].
  assert (Hrows : fs !! creds_path =
    Some (File (header +:+ eol +:+ (user +:+ "," +:+ key_id +:+ "," +:+ secret) +:+ ending)))
    by (rewrite !append_assoc; exact Hfs).
  destruct (return_aws_keys_rows creds_path fs header eol
              (user +:+ "," +:+ key_id +:+ "," +:+ secret) ending) as (nl & Hnl & ->);
    try assumption;
    try (rewrite !free_of_app; cbn [free_of];
         repeat match goal with H : free_of _ _ = true |- _ => rewrite H end; reflexivity).
  cbv zeta. rewrite (occurs_app_l "User Name" header) by exact Hmark.
  rewrite !append_assoc.
  change ("," +:+ key_id +:+ "," +:+ secret +:+ nl)
    with (String "," (key_id +:+ String "," (secret +:+ nl))).
  rewrite (split_field "," user) by exact Huserc.
  rewrite (split_field "," key_id) by exact Hidc.
  rewrite (split_single "," (secret +:+ nl))
    by (rewrite free_of_app, Hsecretc; destruct Hnl as [-> | ->]; reflexivity).
  unfold index. cbn.
  pose proof (strip_newlines_field key_id EmptyString Hidcr Hidlf (or_introl eq_refl)) as Hkey.
  rewrite append_nil_r in Hkey. rewrite Hkey.
  rewrite (strip_newlines_field secret nl) by auto.
  reflexivity.
Qed.

Lemma return_aws_keys_user_keys_witness :
  return_aws_keys "/home/user.csv" credentials_files = inr ("AKIDEXAMPLE", "SECRETEXAMPLE").
Proof.
  apply (return_aws_keys_user_keys "/home/user.csv" credentials_files
           "User Name,Access Key Id,Secret Access Key" "alice" "AKIDEXAMPLE" "SECRETEXAMPLE"
           (String lf EmptyString) EmptyString).
  - reflexivity.
  - reflexivity.
  - reflexivity.
  - reflexivity.
  - reflexivity.
  - reflexivity.
  - left. reflexivity.
  - left. reflexivity.
  - reflexivity.
Defined.

Lemma strip_newlines_free key :
  free_of cr (strip_newlines key) = true /\ free_of lf (strip_newlines key) = true.
Proof.
  unfold strip_newlines. split.
  - apply replace_char_keeps_free, replace_char_free.
  - apply replace_char_free.
Qed.

(** X22: Whenever return_aws_keys returns, neither of the two keys contains a
    carriage return or a line feed. *)
Theorem return_aws_keys_no_line_ends creds_path fs aws_access_key_id aws_secret_access_key :
  return_aws_keys creds_path fs = inr (aws_access_key_id, aws_secret_access_key) ->
  free_of cr aws_access_key_id = true /\ free_of lf aws_access_key_id = true
  /\ free_of cr aws_secret_access_key = true /\ free_of lf aws_secret_access_key = true.
Proof.
  unfold return_aws_keys. intros H.
  destruct (fs !! creds_path) as [[creds_in|]|]; try discriminate.
  destruct (readline creds_in) as [row1 creds_in']. destruct (readline creds_in') as [row2 ?].
  match type of H with
  | match ?keys with _ => _ end = _ => destruct keys as [exc|[key_id secret]]
  end; [discriminate|].
  injection H as <- <-.
  destruct (strip_newlines_free key_id), (strip_newlines_free secret). auto.
Qed.

Lemma return_aws_keys_no_line_ends_witness :
  free_of cr "AKIDEXAMPLE" = true /\ free_of lf "AKIDEXAMPLE" = true
  /\ free_of cr "SECRETEXAMPLE" = true /\ free_of lf "SECRETEXAMPLE" = true.
Proof.
  apply (return_aws_keys_no_line_ends "/home/root.csv" credentials_files).
  reflexivity.
Defined.

(** X23: A credentials file with nothing after its first line never yields keys:
    return_aws_keys raises IndexError when that line contains 'User Name' or
    'AWSAccessKeyId', and the 'Credentials file not recognized' Exception
    otherwise, an empty file included. *)
Theorem return_aws_keys_single_row creds_path fs creds_in :
  fs !! creds_path = Some (File creds_in) ->
  (readline creds_in).2 = EmptyString ->
  return_aws_keys creds_path fs =
  let row1 := (readline creds_in).1 in
  if occurs "User Name" row1 || occurs "AWSAccessKeyId" row1
  then inl (Builtin IndexError)
  else inl (Exception "Credentials file not recognized, check file is correct").
Proof.
  intros Hfs Hrest. unfold return_aws_keys. rewrite Hfs.
  destruct (readline creds_in) as [row1 rest]. cbn [fst snd] in *. subst rest.
  cbn [readline].
  destruct (occurs "User Name" row1); [reflexivity|].
  destruct (occurs "AWSAccessKeyId" row1); [|reflexivity].
  cbn [orb].
  destruct (index (PyStr.split "=" row1) 1) as [exc|key_id] eqn:Hidx; [|reflexivity].
  unfold index in Hidx. destruct (PyStr.split "=" row1 !! 1%nat); [discriminate|].
  now injection Hidx as <-.
Qed.

Lemma return_aws_keys_single_row_witness :
  return_aws_keys "/home/header.csv" credentials_files = inl (Builtin IndexError).
Proof.
  apply (return_aws_keys_single_row "/home/header.csv" credentials_files
           "User Name,Access Key Id,Secret Access Key"); reflexivity.
Defined.

Section return_bucket_props.

Variable int : string -> option Z.
Variable head_bucket : client -> string -> option fault.

Lemma tryout_run c bucket_name t :
  let r := tryout int head_bucket c bucket_name t in
  head_requests r.1 = head_requests t ++ [c]
  /\ (if passes int head_bucket c bucket_name then r.2 = inr tt
      else exists exc, r.2 = inl (Builtin exc)).
Proof.
  unfold tryout, passes.
  destruct (head_bucket c bucket_name) as [[code|what]|]; cbn; [|eauto..].
  destruct (int code) as [error_code|]; cbn; [|eauto].
  destruct (Z.eqb error_code 403); cbn; [eauto|].
  destruct (Z.eqb error_code 404); cbn; eauto.
Qed.

Lemma checked_bucket_run session_keys bucket_name t :
  let signed := Client session_keys true in
  let unsigned := Client session_keys false in
  let r := checked_bucket int head_bucket session_keys bucket_name t in
  if passes int head_bucket signed bucket_name then
    head_requests r.1 = head_requests t ++ [signed]
    /\ r.2 = inr (BucketResource bucket_name signed)
  else
    head_requests r.1 = head_requests t ++ [signed; unsigned]
    /\ if passes int head_bucket unsigned bucket_name
       then r.2 = inr (BucketResource bucket_name unsigned)
       else exists exc, r.2 = inl (Builtin exc).
Proof.
  cbv zeta. unfold checked_bucket.
  pose proof (tryout_run (Client session_keys true) bucket_name t) as [H1 H1'].
  destruct (tryout int head_bucket (Client session_keys true) bucket_name t) as [t1 r1].
  cbn [fst snd] in H1, H1'.
  destruct (passes int head_bucket (Client session_keys true) bucket_name).
  - subst r1. now split.
  - destruct H1' as [exc1 ->]. cbv beta iota.
    pose proof (tryout_run (Client session_keys false) bucket_name t1) as [H2 H2'].
    destruct (tryout int head_bucket (Client session_keys false) bucket_name t1) as [t2 r2].
    cbn [fst snd] in H2, H2'. rewrite H1, <- app_assoc in H2.
    destruct (passes int head_bucket (Client session_keys false) bucket_name).
    + subst r2. now split.
    + destruct H2' as [exc2 ->]. split; [exact H2 | now exists exc2].
Qed.

(** X24: return_bucket sends at most two head_bucket requests, the first signed
    and the second, with the same keys, unsigned. It sends none exactly when
    a credentials path is given and return_aws_keys fails on it, and a
    bucket that is returned has the name asked for and shares the client
    that sent the last request. *)
Theorem return_bucket_head_requests creds_path bucket_name fs t :
  let r := return_bucket int head_bucket creds_path bucket_name fs t in
  exists session_keys reqs,
    head_requests r.1 = head_requests t ++ reqs
    /\ (reqs = []
        \/ reqs = [Client session_keys true]
        \/ reqs = [Client session_keys true; Client session_keys false])
    /\ (reqs = [] <->
        creds_path <> EmptyString /\ exists exc, return_aws_keys creds_path fs = inl exc)
    /\ forall bucket,
         r.2 = inr bucket ->
         bucket_name_of bucket = bucket_name /\ last reqs = Some (client_of bucket).
Proof.
  cbv zeta. unfold return_bucket.
  assert (Hchecked : forall session_keys t0,
    head_requests t0 = head_requests t ->
    let r := checked_bucket int head_bucket session_keys bucket_name t0 in
    exists reqs,
      head_requests r.1 = head_requests t ++ reqs
      /\ (reqs = [Client session_keys true]
          \/ reqs = [Client session_keys true; Client session_keys false])
      /\ forall bucket,
           r.2 = inr bucket ->
           bucket_name_of bucket = bucket_name /\ last reqs = Some (client_of bucket)).
  { intros session_keys t0 Ht0. cbv zeta.
    pose proof (checked_bucket_run session_keys bucket_name t0) as H. cbv zeta in H.
    destruct (checked_bucket int head_bucket session_keys bucket_name t0) as [t1 r1].
    cbn [fst snd] in *. rewrite Ht0 in H.
    destruct (passes int head_bucket (Client session_keys true) bucket_name).
    - destruct H as [H ->]. eexists. split; [exact H|]. split; [now left|].
      intros bucket [= <-]. now split.
    - destruct H as [H H']. eexists. split; [exact H|]. split; [now right|].
      intros bucket Hb.
      destruct (passes int head_bucket (Client session_keys false) bucket_name).
      + rewrite H' in Hb. injection Hb as <-. now split.
      + destruct H' as [exc H']. rewrite H' in Hb. discriminate. }
  destruct (String.eqb_spec creds_path EmptyString) as [Hcreds|Hcreds]; cbn [negb].
  - destruct (Hchecked None (say (ConnectingToAWS bucket_name) t) eq_refl)
      as (reqs & Hreqs & Hshape & Hbucket).
    exists None, reqs. split; [exact Hreqs|]. split; [now right|]. split; [|exact Hbucket].
    split; [|now intros [? _]].
    intros ->. destruct Hshape; discriminate.
  - destruct (return_aws_keys creds_path fs) as [exc|[aws_access_key_id aws_secret_access_key]].
    + exists None, []. cbn [fst snd say head_requests]. rewrite app_nil_r.
      split; [reflexivity|]. split; [now left|]. split; [|discriminate].
      split; [|reflexivity]. intros _. split; [exact Hcreds | now exists exc].
    + destruct (Hchecked (Some (aws_access_key_id, aws_secret_access_key))
                  (say (ConnectingWithCredentials bucket_name creds_path) t) eq_refl)
        as (reqs & Hreqs & Hshape & Hbucket).
      exists (Some (aws_access_key_id, aws_secret_access_key)), reqs.
      split; [exact Hreqs|]. split; [now right|]. split; [|exact Hbucket].
      split; [|now intros [_ [? ?]]].
      intros ->. destruct Hshape; discriminate.
Qed.

(** X25: Once the keys are settled (none for an empty creds_path, those of the
    file otherwise): if the signed check passes the bucket is returned with
    a signing client; if it fails and the unsigned check passes the bucket
    is returned with signing disabled; if both fail return_bucket raises. A
    check passes when head_bucket answers, or fails with a numeric error
    code other than 403 and 404. *)
Theorem return_bucket_falls_back_unsigned creds_path bucket_name fs t session_keys :
  (creds_path = EmptyString /\ session_keys = None
   \/ creds_path <> EmptyString
      /\ exists aws_keys,
           return_aws_keys creds_path fs = inr aws_keys /\ session_keys = Some aws_keys) ->
  let signed := Client session_keys true in
  let unsigned := Client session_keys false in
  let r := return_bucket int head_bucket creds_path bucket_name fs t in
  (passes int head_bucket signed bucket_name = true ->
   r.2 = inr (BucketResource bucket_name signed))
  /\ (passes int head_bucket signed bucket_name = false ->
      passes int head_bucket unsigned bucket_name = true ->
      r.2 = inr (BucketResource bucket_name unsigned))
  /\ (passes int head_bucket signed bucket_name = false ->
      passes int head_bucket unsigned bucket_name = false ->
      exists exc, r.2 = inl (Builtin exc)).
Proof.
  intros Hsession. cbv zeta.
  assert (Hr : exists t0,
    return_bucket int head_bucket creds_path bucket_name fs t =
    checked_bucket int head_bucket session_keys bucket_name t0).
  { unfold return_bucket.
    destruct Hsession as [[-> ->] | (Hne & [key_id secret] & Hkeys & ->)].
    - cbn. eauto.
    - destruct (String.eqb_spec creds_path EmptyString) as [|_]; [contradiction|].
      cbn [negb]. rewrite Hkeys. eauto. }
  destruct Hr as [t0 ->].
  pose proof (checked_bucket_run session_keys bucket_name t0) as H. cbv zeta in H.
  destruct (passes int head_bucket (Client session_keys true) bucket_name).
  - destruct H as [_ H]. repeat split; [now intros _ | discriminate..].
  - destruct H as [_ H].
    destruct (passes int head_bucket (Client session_keys false) bucket_name).
    + repeat split; [discriminate | now intros _ _ | discriminate].
    + repeat split; [discriminate | discriminate | now intros _ _].
Qed.

(** X26: When head_bucket answers 404 to every client (and the credentials file,
    if one is given, can be read), return_bucket raises that ClientError
    after printing, behind the connecting line, the does-not-exist line
    twice, once per attempt. *)
Theorem return_bucket_missing_bucket creds_path bucket_name fs t code :
  (creds_path = EmptyString
   \/ exists aws_keys, return_aws_keys creds_path fs = inr aws_keys) ->
  (forall c, head_bucket c bucket_name = Some (ServiceError code)) ->
  int code = Some 404%Z ->
  let r := return_bucket int head_bucket creds_path bucket_name fs t in
  r.2 = inl (Builtin (ClientError code))
  /\ exists connecting,
       messages r.1 =
       messages t ++ [connecting; BucketDoesNotExist bucket_name; BucketDoesNotExist bucket_name].
Proof.
  intros Hsession Hhead Hint. cbv zeta.
  assert (Hchecked : forall session_keys t0,
    checked_bucket int head_bucket session_keys bucket_name t0 =
    (Trace (messages t0 ++ [BucketDoesNotExist bucket_name; BucketDoesNotExist bucket_name])
           (head_requests t0 ++ [Client session_keys true; Client session_keys false]),
     inl (Builtin (ClientError code)))).
  { intros session_keys t0. unfold checked_bucket, tryout. rewrite !Hhead, Hint.
    cbn. unfold say, sent. cbn. now rewrite <- !app_assoc. }
  unfold return_bucket.
  destruct (String.eqb_spec creds_path EmptyString) as [Hcreds|Hcreds]; cbn [negb].
  - rewrite Hchecked. cbn. split; [reflexivity|]. eexists. now rewrite <- app_assoc.
  - destruct Hsession as [|[[key_id secret] Hkeys]]; [contradiction|]. rewrite Hkeys.
    rewrite Hchecked. cbn. split; [reflexivity|]. eexists. now rewrite <- app_assoc.
Qed.

End return_bucket_props.

Lemma return_bucket_missing_bucket_witness :
  let r := return_bucket decimal no_bucket "/home/user.csv" "fcp-indi" credentials_files
             no_trace in
  r.2 = inl (Builtin (ClientError "404"))
  /\ exists connecting,
       messages r.1 =
       messages no_trace
       ++ [connecting; BucketDoesNotExist "fcp-indi"; BucketDoesNotExist "fcp-indi"].
Proof.
  apply (return_bucket_missing_bucket decimal no_bucket "/home/user.csv" "fcp-indi"
           credentials_files no_trace "404").
  - right. exists ("AKIDEXAMPLE", "SECRETEXAMPLE"). reflexivity.
  - intros c. reflexivity.
  - reflexivity.
Defined.

Lemma return_bucket_falls_back_unsigned_witness :
  let r := return_bucket decimal public_bucket EmptyString "fcp-indi" credentials_files
             no_trace in
  (passes decimal public_bucket (Client None true) "fcp-indi" = true ->
   r.2 = inr (BucketResource "fcp-indi" (Client None true)))
  /\ (passes decimal public_bucket (Client None true) "fcp-indi" = false ->
      passes decimal public_bucket (Client None false) "fcp-indi" = true ->
      r.2 = inr (BucketResource "fcp-indi" (Client None false)))
  /\ (passes decimal public_bucket (Client None true) "fcp-indi" = false ->
      passes decimal public_bucket (Client None false) "fcp-indi" = false ->
      exists exc, r.2 = inl (Builtin exc)).
Proof.
  apply (return_bucket_falls_back_unsigned decimal public_bucket EmptyString "fcp-indi"
           credentials_files no_trace None).
  left. split; reflexivity.
Defined.

Example return_bucket_public_bucket :
  return_bucket decimal public_bucket "/home/root.csv" "fcp-indi" credentials_files no_trace =
  (Trace [ConnectingWithCredentials "fcp-indi" "/home/root.csv"]
         [Client (Some ("AKIDEXAMPLE", "SECRETEXAMPLE")) true;
          Client (Some ("AKIDEXAMPLE", "SECRETEXAMPLE")) false],
   inr (BucketResource "fcp-indi" (Client (Some ("AKIDEXAMPLE", "SECRETEXAMPLE")) false))).
Proof. vm_compute. reflexivity. Qed.

End fetch_creds_props.

(** ** test_bucket_access *)

Lemma open_write_run p content w :
  open_write p content w = (set_files (insert p (File content)) w, Normal tt)
  \/ exists what, open_write p content w = (w, Raised (OSError what)).
Proof.
  unfold open_write, bind, gets.
  destruct (files w !! p) as [[]|] eqn:Hp; [| right; eauto |];
    (destruct (String.eqb (PyStr.dirname p) EmptyString);
     [ unfold ret; destruct (negb (String.eqb p EmptyString)); [now left | right; eauto]
     | unfold os_path_isdir, gets;
       destruct (files w !! PyStr.dirname p) as [[]|]; [right; eauto | now left | right; eauto] ]).
Qed.

Lemma Bucket_upload_file_plain_run b filename key content w :
  files w !! filename = Some (File content) ->
  Bucket_upload_file_plain b filename key w =
  match faults b (UploadFile filename key ∅) with
  | Some f => (add_call (UploadFile filename key ∅) w, Raised (exn_of_fault f))
  | None =>
      (set_objects (insert key (S3Object content (etag_of b content)))
         (add_call (UploadFile filename key ∅) w), Normal tt)
  end.
Proof.
  intros Hfile. unfold Bucket_upload_file_plain, bind. rewrite request_run.
  destruct (faults b (UploadFile filename key ∅)); [reflexivity|].
  unfold open_read, bind, gets. cbn [files add_call]. rewrite Hfile. reflexivity.
Qed.

(** The [try] statement once the test file is written. *)
Lemma write_attempt_run b test_file key content w :
  files w !! test_file = Some (File content) ->
  let upload := UploadFile test_file key ∅ in
  let obj := S3Object content (etag_of b content) in
  write_attempt b test_file key w =
  match faults b upload with
  | Some f =>
      (add_call upload w,
       if is_ClientError (exn_of_fault f) then [WriteAccessNotAvailable] else [],
       if is_ClientError (exn_of_fault f) then inr false else inl (exn_of_fault f))
  | None =>
      match faults b (Delete key) with
      | Some f =>
          (add_call (Delete key) (set_objects (insert key obj) (add_call upload w)),
           if is_ClientError (exn_of_fault f)
           then [WriteAccessConfirmed; WriteAccessNotAvailable] else [WriteAccessConfirmed],
           if is_ClientError (exn_of_fault f) then inr false else inl (exn_of_fault f))
      | None =>
          (set_objects (delete key)
             (add_call (Delete key) (set_objects (insert key obj) (add_call upload w))),
           [WriteAccessConfirmed], inr true)
      end
  end.
Proof.
  intros Hfile. cbv zeta. unfold write_attempt.
  rewrite (Bucket_upload_file_plain_run b test_file key content w Hfile).
  destruct (faults b (UploadFile test_file key ∅)) as [f|].
  - now destruct (is_ClientError (exn_of_fault f)).
  - rewrite Object_delete_run.
    destruct (faults b (Delete key)) as [f|]; [|reflexivity].
    now destruct (is_ClientError (exn_of_fault f)).
Qed.

Section test_bucket_access_props.

Import fetch_creds.

Variable int : string -> option Z.
Variable head_bucket : client -> string -> option fault.
Variable s3_faults : bucket_resource -> call -> option fault.
Variable s3_etag : string -> string.

(** What a call that returns a flag has done. *)
Lemma test_bucket_access_returns test_file creds_path output_directory w t w' t' said flag :
  test_bucket_access int head_bucket s3_faults s3_etag test_file creds_path output_directory w t
  = (w', t', said, inr flag) ->
  let output_directory := lower_scheme output_directory in
  let bucket_name := bucket_name_in output_directory in
  let write_test_key := write_test_key_in output_directory bucket_name test_file in
  exists bucket,
    return_bucket int head_bucket creds_path bucket_name (files w) t = (t', inr bucket)
    /\ (w', said, @inr exn bool flag) =
       write_attempt (boto3_bucket s3_faults s3_etag bucket) test_file write_test_key
         (set_files (insert test_file (File "test123")) w).
Proof.
  unfold test_bucket_access. cbv zeta. intros H.
  destruct (return_bucket int head_bucket creds_path _ (files w) t) as [t1 [exc|bucket]];
    [discriminate|].
  exists bucket.
  destruct (open_write_run test_file "test123" w) as [Hw | [what Hw]]; rewrite Hw in H;
    [|discriminate].
  destruct (write_attempt _ test_file _ _) as [[w2 said2] [exc|flag2]]; [discriminate|].
  now injection H as <- <- <- <-.
Qed.

(** X27: When test_bucket_access returns True, it has written test123 to the
    temporary file and left it on the disk, sent exactly one upload_file and
    one delete for the test key, printed the confirmation only, and the
    bucket is as before except that the test key is absent. *)
Theorem test_bucket_access_true test_file creds_path output_directory w t w' t' said :
  test_bucket_access int head_bucket s3_faults s3_etag test_file creds_path output_directory w t
  = (w', t', said, inr true) ->
  let output_directory := lower_scheme output_directory in
  let write_test_key :=
    write_test_key_in output_directory (bucket_name_in output_directory) test_file in
  files w' = <[test_file := File "test123"]> (files w)
  /\ objects w' = delete write_test_key (objects w)
  /\ calls w' = calls w ++ [UploadFile test_file write_test_key ∅; Delete write_test_key]
  /\ said = [WriteAccessConfirmed].
Proof.
  intros H. apply test_bucket_access_returns in H as (bucket & _ & H). cbv zeta in *.
  rewrite (write_attempt_run _ test_file _ "test123") in H
    by (cbn [files set_files]; apply lookup_insert_eq).
  cbv zeta in H.
  destruct (faults _ (UploadFile _ _ _)) as [f|].
  { destruct (is_ClientError (exn_of_fault f)); discriminate. }
  destruct (faults _ (Delete _)) as [f|].
  { destruct (is_ClientError (exn_of_fault f)); discriminate. }
  injection H as -> ->.
  cbn [files objects calls set_objects set_files add_call].
  rewrite <- app_assoc. repeat split.
  apply map_eq. intros k. destruct (decide (k = write_test_key_in
    (lower_scheme output_directory) (bucket_name_in (lower_scheme output_directory)) test_file))
    as [->|Hne].
  - now rewrite !lookup_delete_eq.
  - now rewrite !lookup_delete_ne, lookup_insert_ne by congruence.
Qed.

(** X28: When test_bucket_access returns False, the temporary file is written
    and left on the disk, and either the upload was refused (only the
    not-available line is printed and the bucket is unchanged) or the upload
    went through and the delete was refused: both lines are printed and the
    test object stays in the bucket. *)
Theorem test_bucket_access_false test_file creds_path output_directory w t w' t' said :
  test_bucket_access int head_bucket s3_faults s3_etag test_file creds_path output_directory w t
  = (w', t', said, inr false) ->
  let output_directory := lower_scheme output_directory in
  let write_test_key :=
    write_test_key_in output_directory (bucket_name_in output_directory) test_file in
  files w' = <[test_file := File "test123"]> (files w)
  /\ (said = [WriteAccessNotAvailable]
      /\ objects w' = objects w
      /\ calls w' = calls w ++ [UploadFile test_file write_test_key ∅]
      \/ said = [WriteAccessConfirmed; WriteAccessNotAvailable]
         /\ objects w' = <[write_test_key := S3Object "test123" (s3_etag "test123")]> (objects w)
         /\ calls w' = calls w ++ [UploadFile test_file write_test_key ∅; Delete write_test_key]).
Proof.
  intros H. apply test_bucket_access_returns in H as (bucket & _ & H). cbv zeta in *.
  rewrite (write_attempt_run _ test_file _ "test123") in H
    by (cbn [files set_files]; apply lookup_insert_eq).
  cbv zeta in H.
  destruct (faults _ (UploadFile _ _ _)) as [f|].
  { destruct (is_ClientError (exn_of_fault f)); [|discriminate].
    injection H as -> ->. split; [reflexivity|]. left. now repeat split. }
  destruct (faults _ (Delete _)) as [f|]; [|discriminate].
  destruct (is_ClientError (exn_of_fault f)); [|discriminate].
  injection H as -> ->. split; [reflexivity|]. right.
  cbn [files objects calls set_objects set_files add_call boto3_bucket etag_of].
  rewrite <- app_assoc. now repeat split.
Qed.

End test_bucket_access_props.

Lemma test_bucket_access_false_witness :
  files access_test_left_over.1.1.1 = <["/tmp/tmpk3x9" := File "test123"]> (files sample_world)
  /\ (access_test_left_over.1.2 = [WriteAccessNotAvailable]
      /\ objects access_test_left_over.1.1.1 = objects sample_world
      /\ calls access_test_left_over.1.1.1 =
         calls sample_world ++ [UploadFile "/tmp/tmpk3x9" "out/dir/tmpk3x9" ∅]
      \/ access_test_left_over.1.2 = [WriteAccessConfirmed; WriteAccessNotAvailable]
         /\ objects access_test_left_over.1.1.1 =
            <["out/dir/tmpk3x9" := S3Object "test123" (etag_of sample_bucket "test123")]>
              (objects sample_world)
         /\ calls access_test_left_over.1.1.1 =
            calls sample_world
            ++ [UploadFile "/tmp/tmpk3x9" "out/dir/tmpk3x9" ∅; Delete "out/dir/tmpk3x9"]).
Proof.
  apply (test_bucket_access_false decimal open_bucket write_only
           (etag_of sample_bucket) "/tmp/tmpk3x9" EmptyString "S3://fcp-indi/out/dir"
           sample_world no_trace access_test_left_over.1.1.1 access_test_left_over.1.1.2
           access_test_left_over.1.2).
  reflexivity.
Defined.

Lemma test_bucket_access_true_witness :
  files access_test_passed.1.1.1 = <["/tmp/tmpk3x9" := File "test123"]> (files sample_world)
  /\ objects access_test_passed.1.1.1 = delete "out/dir/tmpk3x9" (objects sample_world)
  /\ calls access_test_passed.1.1.1 =
     calls sample_world
     ++ [UploadFile "/tmp/tmpk3x9" "out/dir/tmpk3x9" ∅; Delete "out/dir/tmpk3x9"]
  /\ access_test_passed.1.2 = [WriteAccessConfirmed].
Proof.
  apply (test_bucket_access_true decimal open_bucket (fun _ => no_faults)
           (etag_of sample_bucket) "/tmp/tmpk3x9" EmptyString "S3://fcp-indi/out/dir"
           sample_world no_trace access_test_passed.1.1.1 access_test_passed.1.1.2
           access_test_passed.1.2).
  reflexivity.
Defined.

Lemma lower_app a b : PyText.lower (a +:+ b) = PyText.lower a +:+ PyText.lower b.
Proof.
  induction a as [|x a IH]; [reflexivity|].
  change (String x a +:+ b) with (String x (a +:+ b)). cbn [PyText.lower].
  now rewrite IH.
Qed.

Lemma split_nonempty sep s : PyStr.split sep s <> [].
Proof.
  destruct s as [|a s]; [discriminate|]. cbn [PyStr.split].
  destruct (Ascii.eqb a sep); [discriminate|]. now destruct (PyStr.split sep s).
Qed.

Lemma join_cons sep x l : l <> [] -> PyText.join sep (x :: l) = x +:+ sep +:+ PyText.join sep l.
Proof. now destruct l. Qed.

Lemma join_cons_char sep a hd tl :
  PyText.join sep (String a hd :: tl) = String a (PyText.join sep (hd :: tl)).
Proof. now destruct tl. Qed.

(** Splitting at slashes and joining with slashes gives the string back. *)
Lemma join_split s : PyText.join "/" (PyStr.split "/" s) = s.
Proof.
  induction s as [|a s IH]; [reflexivity|]. cbn [PyStr.split].
  destruct (Ascii.eqb_spec a "/") as [->|Hne].
  - rewrite join_cons by apply split_nonempty. now rewrite IH.
  - destruct (PyStr.split "/" s) as [|hd tl] eqn:Hs; [now destruct (split_nonempty "/" s)|].
    now rewrite join_cons_char, IH.
Qed.

Lemma lstrip_not_slash s : PyStr.startswith s "/" = false -> PyStr.lstrip "/" s = s.
Proof.
  destruct s as [|a s]; [reflexivity|]. unfold PyStr.startswith. cbn [String.prefix PyStr.lstrip].
  destruct (ascii_dec "/" a) as [<-|Hne]; [now destruct s|].
  intros _. destruct (Ascii.eqb_spec a "/"); [congruence | reflexivity].
Qed.

(** X29: For an output directory <scheme>//<bucket>/<path> whose scheme is s3:
    in any letter case, test_bucket_access rewrites the directory with the
    scheme in lower case, asks for the bucket <bucket>, and uses
    os.path.join(<path>, basename of the temporary file) as the test key,
    provided s3:// and s3://<bucket> occur nowhere else in it and <path> has
    no leading slash. *)
Theorem test_bucket_access_key scheme bkt path test_file :
  PyText.lower scheme = "s3:" ->
  free_of "/" scheme = true ->
  free_of "/" bkt = true ->
  PyStr.startswith path "/" = false ->
  occurs "s3://" (bkt +:+ String "/" path) = false ->
  occurs ("s3://" +:+ bkt) (String "/" path) = false ->
  let output_directory := lower_scheme (scheme +:+ "//" +:+ bkt +:+ String "/" path) in
  output_directory = "s3://" +:+ bkt +:+ String "/" path
  /\ bucket_name_in output_directory = bkt
  /\ write_test_key_in output_directory bkt test_file
     = posixpath.join path (posixpath.basename test_file).
Proof.
  intros Hscheme Hfree Hbkt Hpath Hocc Hocc'. cbv zeta.
  assert (Hlow : lower_scheme (scheme +:+ "//" +:+ bkt +:+ String "/" path)
                 = "s3://" +:+ bkt +:+ String "/" path).
  { unfold lower_scheme. rewrite lower_app, Hscheme.
    change ("//" +:+ bkt +:+ String "/" path) with (String "/" (String "/" (bkt +:+ String "/" path))).
    cbn [PyText.lower]. change (PyText.lower_char "/") with "/"%char.
    change ("s3:" +:+ String "/" (String "/" ?x)) with ("s3://" +:+ x).
    unfold PyStr.startswith at 1. rewrite prefix_append.
    rewrite (split_field "/" scheme) by exact Hfree.
    change (String "/" (bkt +:+ String "/" path))
      with (EmptyString +:+ String "/" (bkt +:+ String "/" path)).
    rewrite (split_field "/" EmptyString) by reflexivity.
    rewrite (split_field "/" bkt) by exact Hbkt.
    rewrite Hscheme.
    rewrite !join_cons by (try discriminate; apply split_nonempty).
    rewrite join_split. reflexivity. }
  rewrite Hlow. split; [reflexivity|]. split.
  - unfold bucket_name_in.
    rewrite (replace_prefix_once "s3://" (bkt +:+ String "/" path)) by (try discriminate; exact Hocc).
    now rewrite (split_field "/" bkt) by exact Hbkt.
  - unfold write_test_key_in.
    assert (Hjoin : posixpath.join "s3://" bkt = "s3://" +:+ bkt).
    { unfold posixpath.join. destruct bkt as [|a bkt]; [reflexivity|].
      cbn [free_of] in Hbkt. apply andb_true_iff in Hbkt as [Ha _].
      unfold PyStr.startswith. cbn [String.prefix].
      destruct (ascii_dec "/" a) as [<-|_]; [discriminate | reflexivity]. }
    rewrite Hjoin.
    change ("s3://" +:+ bkt +:+ String "/" path) with ("s3://" +:+ (bkt +:+ String "/" path)).
    rewrite <- append_assoc.
    rewrite (replace_prefix_once ("s3://" +:+ bkt) (String "/" path))
      by (try exact Hocc'; now destruct bkt).
    cbn [PyStr.lstrip]. rewrite Ascii.eqb_refl. now rewrite lstrip_not_slash.
Qed.

Lemma test_bucket_access_key_witness :
  let output_directory := lower_scheme "S3://fcp-indi/out/dir" in
  output_directory = "s3://fcp-indi/out/dir"
  /\ bucket_name_in output_directory = "fcp-indi"
  /\ write_test_key_in output_directory "fcp-indi" "/tmp/tmpk3x9"
     = posixpath.join "out/dir" (posixpath.basename "/tmp/tmpk3x9").
Proof.
  apply (test_bucket_access_key "S3:" "fcp-indi" "out/dir" "/tmp/tmpk3x9"); reflexivity.
Defined.

Section test_bucket_access_runs.

Import fetch_creds.

Example test_bucket_access_left_over :
  access_test_left_over.2 = inr false
  /\ objects access_test_left_over.1.1.1 !! "out/dir/tmpk3x9"
     = Some (S3Object "test123" (etag_of sample_bucket "test123")).
Proof. vm_compute. split; reflexivity. Qed.

End test_bucket_access_runs.
